(** * Verification of [app.js]: the clipboard bridge and the preview orchestrator

    The script installs two [DOMContentLoaded] initialisers.  The first one
    registers a document-wide [paste] listener that copies the first image of
    the clipboard into the file input [#photoInput] and shows a transient
    banner.  The second one wires [#previewBtn] to a [POST /preview] request
    and renders the answer into [#previewImage] / [#previewArea].

    The embedding is shallow: every handler is a function in a small
    state-and-exception monad over a record [Page] that holds the objects the
    closures capture, the part of the document the script queries, the timer
    queue and the chronological log of the effects that leave the script
    ([alert], [fetch], [console.error], [preventDefault], [scrollIntoView]). *)

From Stdlib Require Import String Ascii List ZArith Bool Lia.
From stdpp Require Import base gmap strings list.
Import ListNotations.
Local Open Scope string_scope.
Local Set Warnings "-register-all".

(** ** Strings *)

Module Str.

(** The ASCII double quote, used by the banner text. *)
Definition dquote : string := String (ascii_of_nat 34) EmptyString.

(** [String.prototype.indexOf]: position of the first occurrence of
    [needle] at or after offset [i], or [-1].  Strings are sequences of
    UTF-8 bytes here; the script only compares the result with [-1] and the
    only needle is ASCII, for which byte-wise and code-unit-wise containment
    agree. *)
Fixpoint indexOf_from (s needle : string) (i : Z) : Z :=
  if String.prefix needle s then i
  else match s with
       | EmptyString => (-1)%Z
       | String _ s' => indexOf_from s' needle (i + 1)
       end.

Definition indexOf (s needle : string) : Z := indexOf_from s needle 0.

(** [Array.prototype.includes] on an array of strings. *)
Definition includes (l : list string) (x : string) : bool :=
  existsb (String.eqb x) l.

(** [Array.prototype.join]. *)
Fixpoint join (sep : string) (l : list string) : string :=
  match l with
  | [] => ""
  | [x] => x
  | x :: rest => x ++ sep ++ join sep rest
  end.

Definition is_ws (c : ascii) : bool :=
  match nat_of_ascii c with
  | 9 | 10 | 12 | 13 | 32 => true
  | _ => false
  end.

(** The class tokens of a [className]: maximal runs of non-whitespace.
    [cur] is the token being read. *)
Fixpoint tokens (s cur : string) : list string :=
  match s with
  | EmptyString => if String.eqb cur "" then [] else [cur]
  | String c s' =>
      if is_ws c
      then (if String.eqb cur "" then tokens s' "" else cur :: tokens s' "")
      else tokens s' (cur ++ String c EmptyString)
  end.

Definition classList (className : string) : list string := tokens className "".

End Str.

(** ** JSON values and the JavaScript operations applied to them *)

Module JS.

(** A parsed JSON number, abstracted by the two observations the script can
    make of it: whether it is zero (its truthiness) and its decimal
    rendering by [ToString]. *)
Record Number := { num_is_zero : bool; num_text : string }.

(** What [response.json()] can resolve to. *)
Inductive JSON : Type :=
| JNull
| JBool (b : bool)
| JNum (n : Number)
| JStr (s : string)
| JArr (items : list JSON)
| JObj (props : gmap string JSON).

(** The value of a property read: [None] is [undefined]. *)
Definition Value : Type := option JSON.

(** [ToBoolean]. *)
Definition truthy (v : Value) : bool :=
  match v with
  | None => false
  | Some JNull => false
  | Some (JBool b) => b
  | Some (JNum n) => negb (num_is_zero n)
  | Some (JStr s) => negb (String.eqb s "")
  | Some (JArr _) => true
  | Some (JObj _) => true
  end.

(** The string that [ToString] yields for a JSON value when it yields one
    (see [ToString] below for when it does); an array joins its elements with
    a comma, rendering [null] elements as the empty string. *)
Fixpoint toString (v : JSON) : string :=
  match v with
  | JNull => "null"
  | JBool true => "true"
  | JBool false => "false"
  | JNum n => num_text n
  | JStr s => s
  | JArr items =>
      Str.join "," (List.map (fun x => match x with
                                       | JNull => ""
                                       | _ => toString x
                                       end) items)
  | JObj _ => "[object Object]"
  end.

Definition toString_value (v : Value) : string :=
  match v with
  | None => "undefined"
  | Some j => toString j
  end.

(** [ToString] as JavaScript performs it on a parsed value; [None] stands for
    the [TypeError] it throws.  A parsed object that has an own property named
    [toString] hides [Object.prototype.toString] behind a value that cannot be
    called, and [valueOf] gives no primitive either, so the conversion throws;
    any other object gives [[object Object]].  An array converts its elements
    from left to right, so it throws when one of them does. *)
Fixpoint ToString (v : JSON) : option string :=
  match v with
  | JNull => Some "null"
  | JBool true => Some "true"
  | JBool false => Some "false"
  | JNum n => Some (num_text n)
  | JStr s => Some s
  | JArr items =>
      option_map (Str.join ",")
        ((fix elements (l : list JSON) : option (list string) :=
            match l with
            | [] => Some []
            | x :: rest =>
                match (match x with JNull => Some "" | _ => ToString x end) with
                | Some sx =>
                    match elements rest with
                    | Some srest => Some (sx :: srest)
                    | None => None
                    end
                | None => None
                end
            end) items)
  | JObj props =>
      match props !! "toString" with
      | Some _ => None
      | None => Some "[object Object]"
      end
  end.

Definition ToString_value (v : Value) : option string :=
  match v with
  | None => Some "undefined"
  | Some j => ToString j
  end.

(** Exceptions and rejection reasons. [TypeError prop] is the error raised by
    reading or writing property [prop] of [null]. *)
Inductive Error : Type :=
| TypeError (prop : string)
| NetworkError (msg : string)
| SyntaxError (msg : string).

End JS.
Export JS.

(** ** The page *)

Record File := { file_name : string; file_type : string; file_bytes : list Byte.byte }.

(** A [DataTransferItem]: its type string and what [getAsFile()] returns
    ([None] is [null], the answer for an item that is not a file). *)
Record DataTransferItem := { item_type : string; getAsFile : option File }.

(** [#photoInput]; [files] is [None] when the property is absent. *)
Record FileInput := { files : option (list File) }.

(** [#previewBtn]. *)
Record Button := { disabled : bool; textContent : string }.

(** [#previewArea], observed through [style.display]. *)
Record Container := { display : string }.

(** [#previewImage]. *)
Record Image := { src : string }.

(** A checkable [input] element (radio button or checkbox). *)
Record Checkable := { name : string; value : string; checked : bool }.

(** An element that may carry the banner class.  [elem_id] stands for the
    identity of the DOM node. *)
Record Element := { elem_id : nat; className : string; innerHTML : string }.

Inductive FormValue : Type :=
| FormFile (f : File)
| FormString (s : string).

(** Everything the script does to the world outside the DOM state, in the
    order in which it happens. *)
Inductive Effect : Type :=
| PreventDefault
| Alert (msg : string)
| Fetch (url method : string) (body : list (string * FormValue))
| ScrollIntoView (behavior block : string)
| ConsoleError (label : string) (err : JS.Error).

(** The callback handed to [setTimeout]: the only one in the script removes a
    node. *)
Inductive TimerAction : Type :=
| RemoveElement (id : nat).

Record Timer := { due : nat; action : TimerAction }.

(** The state the handlers run on.

    - [photoInput], [previewBtn], [previewArea], [previewImage] are the
      results of [document.getElementById] at load time ([None] is [null]);
      the closures keep these references.
    - [inputs] lists the checkable inputs of the document in tree order.
    - [doc_upto] and [doc_rest] list, in tree order, the elements that may
      match [.paste-success-alert]: those before the position at which
      [photoInput.parentElement.appendChild] inserts, and those after it.
      Such elements are leaves, and [#photoInput] has a parent element.
    - [next_id] is the identity given to the next created node.
    - [now] is the clock in milliseconds, [timers] the pending timeouts.
    - [paste_attached] and [click_attached] record the registered listeners. *)
Record Page := {
  photoInput : option FileInput;
  previewBtn : option Button;
  previewArea : option Container;
  previewImage : option Image;
  inputs : list Checkable;
  doc_upto : list Element;
  doc_rest : list Element;
  next_id : nat;
  now : nat;
  timers : list Timer;
  log : list Effect;
  paste_attached : bool;
  click_attached : bool
}.

Definition set_photoInput (x : option FileInput) (p : Page) : Page :=
  {| photoInput := x; previewBtn := previewBtn p; previewArea := previewArea p;
     previewImage := previewImage p; inputs := inputs p; doc_upto := doc_upto p;
     doc_rest := doc_rest p; next_id := next_id p; now := now p; timers := timers p;
     log := log p; paste_attached := paste_attached p; click_attached := click_attached p |}.

Definition set_previewBtn (x : option Button) (p : Page) : Page :=
  {| photoInput := photoInput p; previewBtn := x; previewArea := previewArea p;
     previewImage := previewImage p; inputs := inputs p; doc_upto := doc_upto p;
     doc_rest := doc_rest p; next_id := next_id p; now := now p; timers := timers p;
     log := log p; paste_attached := paste_attached p; click_attached := click_attached p |}.

Definition set_previewArea (x : option Container) (p : Page) : Page :=
  {| photoInput := photoInput p; previewBtn := previewBtn p; previewArea := x;
     previewImage := previewImage p; inputs := inputs p; doc_upto := doc_upto p;
     doc_rest := doc_rest p; next_id := next_id p; now := now p; timers := timers p;
     log := log p; paste_attached := paste_attached p; click_attached := click_attached p |}.

Definition set_previewImage (x : option Image) (p : Page) : Page :=
  {| photoInput := photoInput p; previewBtn := previewBtn p; previewArea := previewArea p;
     previewImage := x; inputs := inputs p; doc_upto := doc_upto p;
     doc_rest := doc_rest p; next_id := next_id p; now := now p; timers := timers p;
     log := log p; paste_attached := paste_attached p; click_attached := click_attached p |}.

Definition set_doc (upto rest : list Element) (p : Page) : Page :=
  {| photoInput := photoInput p; previewBtn := previewBtn p; previewArea := previewArea p;
     previewImage := previewImage p; inputs := inputs p; doc_upto := upto;
     doc_rest := rest; next_id := next_id p; now := now p; timers := timers p;
     log := log p; paste_attached := paste_attached p; click_attached := click_attached p |}.

Definition set_next_id (n : nat) (p : Page) : Page :=
  {| photoInput := photoInput p; previewBtn := previewBtn p; previewArea := previewArea p;
     previewImage := previewImage p; inputs := inputs p; doc_upto := doc_upto p;
     doc_rest := doc_rest p; next_id := n; now := now p; timers := timers p;
     log := log p; paste_attached := paste_attached p; click_attached := click_attached p |}.

Definition set_clock (t : nat) (ts : list Timer) (p : Page) : Page :=
  {| photoInput := photoInput p; previewBtn := previewBtn p; previewArea := previewArea p;
     previewImage := previewImage p; inputs := inputs p; doc_upto := doc_upto p;
     doc_rest := doc_rest p; next_id := next_id p; now := t; timers := ts;
     log := log p; paste_attached := paste_attached p; click_attached := click_attached p |}.

Definition set_log (l : list Effect) (p : Page) : Page :=
  {| photoInput := photoInput p; previewBtn := previewBtn p; previewArea := previewArea p;
     previewImage := previewImage p; inputs := inputs p; doc_upto := doc_upto p;
     doc_rest := doc_rest p; next_id := next_id p; now := now p; timers := timers p;
     log := l; paste_attached := paste_attached p; click_attached := click_attached p |}.

Definition set_listeners (paste click : bool) (p : Page) : Page :=
  {| photoInput := photoInput p; previewBtn := previewBtn p; previewArea := previewArea p;
     previewImage := previewImage p; inputs := inputs p; doc_upto := doc_upto p;
     doc_rest := doc_rest p; next_id := next_id p; now := now p; timers := timers p;
     log := log p; paste_attached := paste; click_attached := click |}.

(** The elements of the document in tree order. *)
Definition document (p : Page) : list Element := doc_upto p ++ doc_rest p.

(** ** The monad of handler code: state plus exceptions

    A JavaScript exception keeps the mutations made before it was thrown, so a
    computation returns the final page together with its completion. *)

Inductive Completion (A : Type) : Type :=
| Normal (a : A)
| Throw (e : JS.Error).
Arguments Normal {A} a.
Arguments Throw {A} e.

Definition M (A : Type) : Type := Page -> Completion A * Page.

Definition ret {A : Type} (a : A) : M A := fun p => (Normal a, p).

Definition bind {A B : Type} (m : M A) (k : A -> M B) : M B :=
  fun p => match m p with
           | (Normal a, p') => k a p'
           | (Throw e, p') => (Throw e, p')
           end.

Definition throw {A : Type} (e : JS.Error) : M A := fun p => (Throw e, p).

(** [try { m } catch (e) { h e }], which is also what
    [promise.then(m).catch(h)] does with an exception of [m]. *)
Definition try_catch {A : Type} (m : M A) (h : JS.Error -> M A) : M A :=
  fun p => match m p with
           | (Normal a, p') => (Normal a, p')
           | (Throw e, p') => h e p'
           end.

Definition gets {A : Type} (f : Page -> A) : M A := fun p => (Normal (f p), p).

Definition modify (f : Page -> Page) : M unit := fun p => (Normal tt, f p).

Declare Scope js_scope.
Delimit Scope js_scope with js.
Notation "x <- c ;; k" := (bind c (fun x => k))
  (at level 100, c at next level, right associativity) : js_scope.
Notation "c ;; k" := (bind c (fun _ => k))
  (at level 100, right associativity) : js_scope.
Local Open Scope js_scope.

(** Reading a property of a reference that may be [null]. *)
Definition deref {A : Type} (ref : Page -> option A) (prop : string) : M A :=
  o <- gets ref ;;
  match o with
  | Some x => ret x
  | None => throw (TypeError prop)
  end.

Definition emit (e : Effect) : M unit := modify (fun p => set_log (log p ++ [e]) p).

(** [window.alert]. *)
Definition alert (msg : string) : M unit := emit (Alert msg).

(** ** DOM operations used by the script *)

Definition has_class (cls : string) (el : Element) : bool :=
  Str.includes (Str.classList (className el)) cls.

(** [document.querySelector('.' + cls)]: the first match in tree order,
    returned as a reference to the node. *)
Definition querySelector_class (cls : string) : M (option nat) :=
  gets (fun p => option_map elem_id (List.find (has_class cls) (document p))).

Definition detach (id : nat) (l : list Element) : list Element :=
  List.filter (fun el => negb (Nat.eqb (elem_id el) id)) l.

(** [node.remove()]: nothing happens when the node is not in the document. *)
Definition remove_node (id : nat) (p : Page) : Page :=
  set_doc (detach id (doc_upto p)) (detach id (doc_rest p)) p.

(** [document.createElement]: a new node, not yet in the document. *)
Definition createElement : M nat :=
  id <- gets next_id ;;
  modify (set_next_id (S id)) ;;
  ret id.

(** [photoInput.parentElement.appendChild(el)]. *)
Definition appendChild (el : Element) : M unit :=
  modify (fun p => set_doc (doc_upto p ++ [el]) (doc_rest p) p).

(** [setTimeout(callback, delay)]. *)
Definition setTimeout (a : TimerAction) (delay : nat) : M unit :=
  modify (fun p => set_clock (now p)
                     (timers p ++ [ {| due := now p + delay; action := a |} ]) p).

Definition run_action (a : TimerAction) (p : Page) : Page :=
  match a with
  | RemoveElement id => remove_node id p
  end.

(** The clock advances by [ms] milliseconds and the event loop runs the
    callbacks that have become due, oldest registration first (every timeout
    of the script has the same delay, so this is also the order of the due
    times). *)
Definition advance (ms : nat) (p : Page) : Page :=
  let t := now p + ms in
  let fired := List.filter (fun tm => Nat.leb (due tm) t) (timers p) in
  let kept := List.filter (fun tm => negb (Nat.leb (due tm) t)) (timers p) in
  fold_left (fun q tm => run_action (action tm) q) fired (set_clock t kept p).

(** [document.querySelector('input[name=...]:checked')]. *)
Definition querySelector_checked (nm : string) : M (option Checkable) :=
  gets (fun p => List.find (fun i => String.eqb (name i) nm && checked i) (inputs p)).

(** ** First initialiser: the paste listener (lines 2-62) *)

Definition banner_class : string := "paste-success-alert".

Definition banner_className : string := "alert alert-info paste-success-alert mt-2".

Definition banner_html : string :=
  "✅ 已从剪贴板粘贴图片，请选择背景颜色后点击" ++ Str.dquote ++ "一键生成证件照"
  ++ Str.dquote ++ "按钮".

(** The banner node created by [showPasteSuccess] when it is given identity [id]. *)
Definition banner (id : nat) : Element :=
  {| elem_id := id; className := banner_className; innerHTML := banner_html |}.

(** [showPasteSuccess] (lines 44-61).  Lines 52-54 create the node and give
    it its class and content: that node is [banner id]. *)
Definition showPasteSuccess : M unit :=
  existingAlert <- querySelector_class banner_class ;;
  match existingAlert with
  | Some el => modify (remove_node el)
  | None => ret tt
  end ;;
  id <- createElement ;;
  _ <- deref photoInput "parentElement" ;;
  appendChild (banner id) ;;
  setTimeout (RemoveElement id) 3000.

Definition allowedTypes : list string := ["image/jpeg"; "image/jpg"; "image/png"].

Definition unsupported_msg : string := "仅支持 JPG / PNG 格式的图片".

(** [item.type.indexOf('image') !== -1] (line 15). *)
Definition is_image (it : DataTransferItem) : bool :=
  negb (Str.indexOf (item_type it) "image" =? -1)%Z.

(** The [paste] listener (lines 7-41) on [items], the list
    [e.clipboardData.items], by recursion on the items that the [for] loop has
    not visited yet.  Both the [return] of line 24 and the
    [break] of line 38 leave the loop, and nothing follows the loop. *)
Fixpoint paste_handler (items : list DataTransferItem) : M unit :=
  match items with
  | [] => ret tt
  | item :: rest =>
      if is_image item then
        emit PreventDefault ;;
        file <- match getAsFile item with
                | Some f => ret f
                | None => throw (TypeError "type")
                end ;;
        if negb (Str.includes allowedTypes (file_type file)) then
          alert unsupported_msg
        else
          _ <- deref photoInput "files" ;;
          modify (set_photoInput (Some {| files := Some [file] |})) ;;
          showPasteSuccess
      else paste_handler rest
  end.

(** The initialiser itself (lines 2-7): two lookups and one registration. *)
Definition init_paste : M unit :=
  modify (fun p => set_listeners true (click_attached p) p).

(** ** Second initialiser: the preview button (lines 64-120) *)

Definition no_file_msg : string := "请先选择或粘贴一张图片".
Definition busy_label : string := "处理中...".
Definition idle_label : string := "预览证件照".
Definition failure_msg : string := "预览失败，请稍后重试".

Definition set_disabled (b : bool) : M unit :=
  btn <- deref previewBtn "disabled" ;;
  modify (set_previewBtn (Some {| disabled := b; textContent := textContent btn |})).

Definition set_textContent (s : string) : M unit :=
  btn <- deref previewBtn "textContent" ;;
  modify (set_previewBtn (Some {| disabled := disabled btn; textContent := s |})).

(** The [click] listener up to and including the call of [fetch]
    (lines 72-92).  [files] being non-empty, [files[0]] is its head. *)
Definition click_handler : M unit :=
  input <- deref photoInput "files" ;;
  match files input with
  | None => alert no_file_msg
  | Some [] => alert no_file_msg
  | Some (photo :: _) =>
      sel <- querySelector_checked "bg_color" ;;
      bgColor <- match sel with
                 | Some radio => ret (value radio)
                 | None => throw (TypeError "value")
                 end ;;
      let formData := [("photo", FormFile photo); ("bg_color", FormString bgColor)] in
      set_disabled true ;;
      set_textContent busy_label ;;
      emit (Fetch "/preview" "POST" formData)
  end.

(** Property read [data.k].  None of the names the script reads is defined
    on a primitive, an array or a prototype, so only an object can answer
    with something else than [undefined]; [null] has no properties. *)
Definition get (data : JSON) (k : string) : M Value :=
  match data with
  | JNull => throw (TypeError k)
  | JObj props => ret (props !! k)
  | _ => ret None
  end.

(** The fulfilment callback of lines 94-111.  The string conversions of
    lines 99 and 105 are taken as [toString_value], the string that
    JavaScript's [ToString] yields where it does not throw. *)
Definition on_fulfilled (data : JSON) : M unit :=
  set_disabled false ;;
  set_textContent idle_label ;;
  error <- get data "error" ;;
  if truthy error then
    alert (toString_value error)
  else
    success <- get data "success" ;;
    cond <- (if truthy success then get data "preview_base64" else ret success) ;;
    if truthy cond then
      mime <- get data "preview_mime_type" ;;
      b64 <- get data "preview_base64" ;;
      _ <- deref previewImage "src" ;;
      modify (set_previewImage
                (Some {| src := "data:" ++ toString_value mime ++ ";base64,"
                                ++ toString_value b64 |})) ;;
      _ <- deref previewArea "style" ;;
      modify (set_previewArea (Some {| display := "block" |})) ;;
      emit (ScrollIntoView "smooth" "nearest")
    else ret tt.

(** The rejection callback of lines 112-117. *)
Definition on_rejected (error : JS.Error) : M unit :=
  set_disabled false ;;
  set_textContent idle_label ;;
  alert failure_msg ;;
  emit (ConsoleError "Error:" error).

(** How the request of line 89 settles. *)
Inductive Outcome : Type :=
| NetworkFailure (e : JS.Error)
| ParseFailure (e : JS.Error)
| Parsed (data : JSON).

(** The promise chain [fetch(..).then(r => r.json()).then(..).catch(..)]: a
    rejection of [fetch] or of [json()] skips to the [catch]; so does an
    exception thrown by the fulfilment callback. *)
Definition on_settle (o : Outcome) : M unit :=
  match o with
  | NetworkFailure e => on_rejected e
  | ParseFailure e => on_rejected e
  | Parsed data => try_catch (on_fulfilled data) on_rejected
  end.

(** The initialiser (lines 64-71 and 119): five lookups, then the listener is
    registered under the guard [if (previewBtn)]. *)
Definition init_preview : M unit :=
  btn <- gets previewBtn ;;
  match btn with
  | Some _ => modify (fun p => set_listeners (paste_attached p) true p)
  | None => ret tt
  end.

(** Event dispatch: a listener runs only if it has been registered. *)
Definition dispatch_paste (items : list DataTransferItem) : M unit :=
  attached <- gets paste_attached ;;
  if attached then paste_handler items else ret tt.


(** Both initialisers run on [DOMContentLoaded], in registration order. *)
Definition DOMContentLoaded : M unit :=
  init_paste ;;
  init_preview.

(** * Vocabulary of the statements *)

(** [needle] occurs in [s]. *)
Definition contains (s needle : string) : Prop :=
  exists a b : string, s = a ++ needle ++ b.

(** [item] is a file entry of the clipboard and [f] is the file it carries:
    [getAsFile()] answers [f], whose type is the type string of the entry. *)
Definition file_item (item : DataTransferItem) (f : File) : Prop :=
  getAsFile item = Some f /\ file_type f = item_type item.

(** Node identities are allocated in increasing order: every node of the
    document, and every node a pending timeout refers to, is older than the
    next node to be created. *)
Definition fresh_ids (p : Page) : Prop :=
  (forall el, In el (document p) -> elem_id el < next_id p) /\
  (forall tm, In tm (timers p) ->
     match action tm with RemoveElement id => id < next_id p end).

(** The page after [querySelector('.paste-success-alert')] and the
    conditional [remove()] of lines 46-49. *)
Definition without_first_banner (p : Page) : Page :=
  match List.find (has_class banner_class) (document p) with
  | Some el => remove_node (elem_id el) p
  | None => p
  end.

(** The timeout registered by line 58 on page [p]. *)
Definition banner_timer (p : Page) : Timer :=
  {| due := now p + 3000; action := RemoveElement (next_id p) |}.

(** The page on which [showPasteSuccess] is called for an accepted [file]. *)
Definition with_pasted_file (file : File) (p : Page) : Page :=
  set_photoInput (Some {| files := Some [file] |})
    (set_log (log p ++ [PreventDefault]) p).

(** The elements of a list that carry the banner class. *)
Definition banners (l : list Element) : list Element :=
  List.filter (has_class banner_class) l.

(** The value of [data.k] when [data] is not [null]. *)
Definition field (data : JSON) (k : string) : Value :=
  match data with
  | JObj props => props !! k
  | _ => None
  end.

(** The page once the button has been re-enabled and relabelled
    (lines 95-96 and 113-114). *)
Definition restored (p : Page) : Page :=
  set_previewBtn (Some {| disabled := false; textContent := idle_label |}) p.

(** The template literal of line 105. *)
Definition data_uri (mime b64 : Value) : string :=
  "data:" ++ toString_value mime ++ ";base64," ++ toString_value b64.

(** The page once lines 105-109 have run on existing elements. *)
Definition rendered (uri : string) (p : Page) : Page :=
  set_log (log p ++ [ScrollIntoView "smooth" "nearest"])
    (set_previewArea (Some {| display := "block" |})
       (set_previewImage (Some {| src := uri |}) p)).

(** The request body built by lines 81-83. *)
Definition formData (photo : File) (bgColor : string) : list (string * FormValue) :=
  [("photo", FormFile photo); ("bg_color", FormString bgColor)].

(** The page in flight: button disabled and relabelled, request issued. *)
Definition pending (photo : File) (bgColor : string) (p : Page) : Page :=
  set_log (log p ++ [Fetch "/preview" "POST" (formData photo bgColor)])
    (set_previewBtn (Some {| disabled := true; textContent := busy_label |}) p).

(** The first checked input named [bg_color], if any. *)
Definition checked_bg_color (p : Page) : option Checkable :=
  List.find (fun i => String.eqb (name i) "bg_color" && checked i) (inputs p).

(** ** Concrete pages, clipboard items and response bodies *)

Module Sample.

Definition png : File :=
  {| file_name := "image.png"; file_type := "image/png"; file_bytes := [] |}.

Definition gif : File :=
  {| file_name := "image.gif"; file_type := "image/gif"; file_bytes := [] |}.

Definition png_item : DataTransferItem :=
  {| item_type := "image/png"; getAsFile := Some png |}.

Definition gif_item : DataTransferItem :=
  {| item_type := "image/gif"; getAsFile := Some gif |}.

(** The markup that accompanies a copied image: a string entry. *)
Definition html_item : DataTransferItem :=
  {| item_type := "text/html"; getAsFile := None |}.

(** A freshly loaded page: empty file input, hidden preview, [blue] chosen,
    a button whose markup reads [Preview]. *)
Definition page : Page :=
  {| photoInput := Some {| files := Some [] |};
     previewBtn := Some {| disabled := false; textContent := "Preview" |};
     previewArea := Some {| display := "none" |};
     previewImage := Some {| src := "" |};
     inputs := [ {| name := "bg_color"; value := "white"; checked := false |};
                 {| name := "bg_color"; value := "blue"; checked := true |} ];
     doc_upto := []; doc_rest := []; next_id := 0; now := 0; timers := [];
     log := []; paste_attached := true; click_attached := true |}.

(** The same page once a file has been chosen. *)
Definition ready : Page := set_photoInput (Some {| files := Some [png] |}) page.

(** The same page with every radio button unchecked. *)
Definition unchecked : Page :=
  {| photoInput := photoInput ready; previewBtn := previewBtn ready;
     previewArea := previewArea ready; previewImage := previewImage ready;
     inputs := [ {| name := "bg_color"; value := "white"; checked := false |} ];
     doc_upto := []; doc_rest := []; next_id := 0; now := 0; timers := [];
     log := []; paste_attached := true; click_attached := true |}.


(** [{success:true, preview_base64:"QQ==", preview_mime_type:"image/png"}] *)
Definition success_props : gmap string JSON :=
  list_to_map [("success", JBool true); ("preview_base64", JStr "QQ==");
               ("preview_mime_type", JStr "image/png")].

(** [{success:true, preview_base64:"", preview_mime_type:"image/png"}] *)
Definition empty_preview_props : gmap string JSON :=
  list_to_map [("success", JBool true); ("preview_base64", JStr "");
               ("preview_mime_type", JStr "image/png")].

(** [{error:"", success:true, preview_base64:"QQ==", preview_mime_type:"image/png"}] *)
Definition empty_error_props : gmap string JSON :=
  list_to_map [("error", JStr ""); ("success", JBool true);
               ("preview_base64", JStr "QQ==");
               ("preview_mime_type", JStr "image/png")].

(** [{error:"no face found", success:false}] *)
Definition error_props : gmap string JSON :=
  list_to_map [("error", JStr "no face found"); ("success", JBool false)].

(** [{success:false}] *)
Definition failure_props : gmap string JSON :=
  list_to_map [("success", JBool false)].

(** The page after pasting a GIF followed by a PNG. *)
Definition after_gif_paste : Page :=
  snd (paste_handler [gif_item; png_item] page).

(** The page in flight after a click on [ready], and the page once the
    request has failed on the network. *)
Definition in_flight : Page := snd (click_handler ready).

Definition after_failure : Page :=
  snd (on_settle (NetworkFailure (NetworkError "Failed to fetch")) in_flight).

(** The pages after [in_flight] settles with each of three bodies. *)
Definition after_empty_preview : Page :=
  snd (on_settle (Parsed (JObj empty_preview_props)) in_flight).

Definition after_empty_error : Page :=
  snd (on_settle (Parsed (JObj empty_error_props)) in_flight).

Definition after_null : Page := snd (on_settle (Parsed JNull) in_flight).

End Sample.


(** ** Vocabulary of the further properties *)

(** The first entry of [items] whose type contains [image] is a file entry of
    a supported type, carrying [file]. *)
Definition supported_paste (items : list DataTransferItem) (file : File) : Prop :=
  exists pre item post,
    items = (pre ++ item :: post)%list /\
    (forall it, In it pre -> ~ contains (item_type it) "image") /\
    file_item item file /\
    In (item_type item) allowedTypes.

(** What the preview side of the page consists of: the three preview
    elements, the colour inputs, the clock and the registered listeners. *)
Definition preview_part (p : Page) :=
  (previewBtn p, previewArea p, previewImage p, inputs p, now p,
   paste_attached p, click_attached p).

(** What the paste side of the page consists of: the file input, the colour
    inputs, the document with its node counter, the clock with its timers and
    the registered listeners. *)
Definition paste_part (p : Page) :=
  (photoInput p, inputs p, doc_upto p, doc_rest p, next_id p, now p, timers p,
   paste_attached p, click_attached p).

(** The effects the rejection callback adds for [e] (lines 115-116). *)
Definition failure_report (e : JS.Error) : list Effect :=
  [Alert failure_msg; ConsoleError "Error:" e].

Module Scenario.

Definition jpeg : File :=
  {| file_name := "photo.jpg"; file_type := "image/jpeg"; file_bytes := [] |}.

Definition jpeg_item : DataTransferItem :=
  {| item_type := "image/jpeg"; getAsFile := Some jpeg |}.

(** A string entry whose custom type contains [image]: [getAsFile()] is [null]. *)
Definition image_url_item : DataTransferItem :=
  {| item_type := "text/x-image-url"; getAsFile := None |}.

(** A page whose markup has no [#photoInput]. *)
Definition no_input : Page := set_photoInput None Sample.page.

(** A page whose markup has no [#previewImage], and one without [#previewArea],
    both with the request in flight. *)
Definition no_image : Page := set_previewImage None Sample.in_flight.

Definition no_area : Page := set_previewArea None Sample.in_flight.

(** A page before the initialisers have run, with all elements present. *)
Definition unloaded : Page := set_listeners false false Sample.page.

(** [{success:1, preview_base64:"QQ=="}] *)
Definition loose_props : gmap string JSON :=
  list_to_map [("success", JNum {| num_is_zero := false; num_text := "1" |});
               ("preview_base64", JStr "QQ==")].

End Scenario.

(** * Proof tools *)

#[local] Arguments Str.includes : simpl never.
#[local] Arguments Str.indexOf : simpl never.
#[local] Arguments has_class : simpl never.
#[local] Arguments is_image : simpl never.
#[local] Arguments field : simpl never.
#[local] Arguments truthy : simpl never.
#[local] Arguments toString_value : simpl never.

(** Unfolds the plumbing of the monad, leaving the tests of the handler. *)
Ltac run :=
  repeat (progress (unfold bind, ret, gets, modify, throw, deref, alert, emit; cbn)).

(** * Properties *)

(** ** Substring search and membership *)

Lemma append_cons (c : ascii) (a b : string) : String c a ++ b = String c (a ++ b).
Proof. reflexivity. Qed.

Lemma append_empty (b : string) : "" ++ b = b.
Proof. reflexivity. Qed.

Lemma prefix_iff_append (needle s : string) :
  String.prefix needle s = true <-> exists b, s = needle ++ b.
Proof.
  revert s. induction needle as [|c needle IH]; intros s.
  - split; [intros _; exists s; reflexivity | intros _; destruct s; reflexivity].
  - destruct s as [|d s]; cbn [String.prefix].
    + split; [discriminate | intros [b Hb]; rewrite append_cons in Hb; discriminate].
    + destruct (ascii_dec c d) as [->|Hne].
      * rewrite (IH s).
        split; intros [b Hb]; exists b; rewrite append_cons in *; congruence.
      * split; [discriminate | intros [b Hb]; rewrite append_cons in Hb; congruence].
Qed.

Lemma prefix_occurs (needle s : string) :
  String.prefix needle s = false -> forall b, s <> needle ++ b.
Proof.
  intros Hp b Hb.
  assert (String.prefix needle s = true) by (apply prefix_iff_append; eauto).
  congruence.
Qed.

Lemma indexOf_from_found (needle s : string) (i : Z) :
  (0 <= i)%Z ->
  Str.indexOf_from s needle i <> (-1)%Z <-> contains s needle.
Proof.
  revert i. induction s as [|c s IH]; intros i Hi; cbn [Str.indexOf_from].
  - destruct (String.prefix needle "") eqn:Hp.
    + split; [intros _ | lia].
      apply prefix_iff_append in Hp as [b Hb]. exists "", b. exact Hb.
    + split; [congruence|]. intros [a [b Hab]]. exfalso.
      destruct a; [|rewrite append_cons in Hab; discriminate].
      rewrite append_empty in Hab. exact (prefix_occurs _ _ Hp b Hab).
  - destruct (String.prefix needle (String c s)) eqn:Hp.
    + split; [intros _ | lia].
      apply prefix_iff_append in Hp as [b Hb]. exists "", b. exact Hb.
    + rewrite (IH (i + 1)%Z) by lia. split.
      * intros [a [b Hab]]. exists (String c a), b. rewrite append_cons. congruence.
      * intros [a [b Hab]]. destruct a as [|d a].
        -- exfalso. rewrite append_empty in Hab. exact (prefix_occurs _ _ Hp b Hab).
        -- rewrite append_cons in Hab. exists a, b. congruence.
Qed.

(** [is_image] is the test "the type string contains [image]". *)
Lemma is_image_spec (it : DataTransferItem) :
  is_image it = true <-> contains (item_type it) "image".
Proof.
  unfold is_image, Str.indexOf.
  rewrite <- (indexOf_from_found "image" (item_type it) 0) by lia.
  rewrite negb_true_iff, Z.eqb_neq. reflexivity.
Qed.

Lemma is_image_false (it : DataTransferItem) :
  is_image it = false <-> ~ contains (item_type it) "image".
Proof.
  rewrite <- is_image_spec. destruct (is_image it); split; congruence.
Qed.

Lemma includes_spec (l : list string) (x : string) :
  Str.includes l x = true <-> In x l.
Proof.
  unfold Str.includes. rewrite existsb_exists. split.
  - intros [y [Hy Heq]]. apply String.eqb_eq in Heq. subst. exact Hy.
  - intros H. exists x. split; [exact H | apply String.eqb_refl].
Qed.

Lemma includes_false (l : list string) (x : string) :
  Str.includes l x = false <-> ~ In x l.
Proof.
  rewrite <- includes_spec. destruct (Str.includes l x); split; congruence.
Qed.

(** ** The paste handler skips what is not an image *)

Lemma paste_handler_skip (pre rest : list DataTransferItem) (p : Page) :
  Forall (fun it => is_image it = false) pre ->
  paste_handler (pre ++ rest)%list p = paste_handler rest p.
Proof.
  induction 1 as [|it pre Hit _ IH]; simpl; [reflexivity|].
  rewrite Hit. exact IH.
Qed.

Lemma not_image_items (items : list DataTransferItem) :
  (forall it, In it items -> ~ contains (item_type it) "image") ->
  Forall (fun it => is_image it = false) items.
Proof.
  intros H. apply List.Forall_forall. intros it Hit.
  apply is_image_false. exact (H it Hit).
Qed.

(** ** Accepting and rejecting the first image *)

Lemma showPasteSuccess_run (p : Page) (input : FileInput) :
  photoInput p = Some input ->
  showPasteSuccess p =
    (Normal tt,
     let q := without_first_banner p in
     set_clock (now p) (timers p ++ [banner_timer p])
       (set_doc (doc_upto q ++ [banner (next_id p)]) (doc_rest q)
          (set_next_id (S (next_id p)) q))).
Proof.
  intros Hin. unfold showPasteSuccess, without_first_banner, querySelector_class,
    createElement, appendChild, setTimeout, banner_timer.
  run. destruct (List.find (has_class banner_class) (document p)) as [old|];
    run; rewrite Hin; reflexivity.
Qed.

Lemma paste_handler_accept (p : Page) (item : DataTransferItem) (file : File)
    (post : list DataTransferItem) (input : FileInput) :
  is_image item = true ->
  getAsFile item = Some file ->
  Str.includes allowedTypes (file_type file) = true ->
  photoInput p = Some input ->
  paste_handler (item :: post) p = showPasteSuccess (with_pasted_file file p).
Proof.
  intros Himg Hfile Hok Hin. cbn [paste_handler]. rewrite Himg.
  run. rewrite Hfile. run. rewrite Hok. run. rewrite Hin. reflexivity.
Qed.

Lemma paste_handler_reject (p : Page) (item : DataTransferItem) (file : File)
    (post : list DataTransferItem) :
  is_image item = true ->
  getAsFile item = Some file ->
  Str.includes allowedTypes (file_type file) = false ->
  paste_handler (item :: post) p =
    (Normal tt, set_log (log p ++ [PreventDefault; Alert unsupported_msg]) p).
Proof.
  intros Himg Hfile Hbad. cbn [paste_handler]. rewrite Himg.
  run. rewrite Hfile. run. rewrite Hbad. run.
  rewrite <- app_assoc. reflexivity.
Qed.

(** ** The document under [remove()] and under the passing of time *)

Lemma document_remove_node (id : nat) (p : Page) :
  document (remove_node id p) = detach id (document p).
Proof. unfold document, detach. cbn. rewrite List.filter_app. reflexivity. Qed.

Lemma In_detach (id : nat) (el : Element) (l : list Element) :
  In el (detach id l) <-> In el l /\ elem_id el <> id.
Proof.
  unfold detach. rewrite filter_In, negb_true_iff, Nat.eqb_neq. reflexivity.
Qed.

Lemma run_action_keeps (a : TimerAction) (el : Element) (p : Page) :
  a <> RemoveElement (elem_id el) ->
  In el (document p) -> In el (document (run_action a p)).
Proof.
  destruct a as [id]. intros Hne Hin. cbn [run_action]. rewrite document_remove_node.
  apply In_detach. split; [exact Hin | congruence].
Qed.

Lemma run_action_shrinks (a : TimerAction) (el : Element) (p : Page) :
  In el (document (run_action a p)) -> In el (document p).
Proof.
  destruct a as [id]. cbn [run_action]. rewrite document_remove_node, In_detach. tauto.
Qed.

Lemma run_timers_keep (fired : list Timer) (el : Element) (p : Page) :
  (forall tm, In tm fired -> action tm <> RemoveElement (elem_id el)) ->
  In el (document p) ->
  In el (document (fold_left (fun q tm => run_action (action tm) q) fired p)).
Proof.
  revert p. induction fired as [|tm fired IH]; intros p Hne Hin; cbn; [exact Hin|].
  apply IH.
  - intros tm' Htm'. apply Hne. right. exact Htm'.
  - apply run_action_keeps; [apply Hne; left; reflexivity | exact Hin].
Qed.

Lemma run_timers_shrink (fired : list Timer) (el : Element) (p : Page) :
  In el (document (fold_left (fun q tm => run_action (action tm) q) fired p)) ->
  In el (document p).
Proof.
  revert p. induction fired as [|tm fired IH]; intros p Hin; cbn in Hin; [exact Hin|].
  apply IH in Hin. exact (run_action_shrinks _ _ _ Hin).
Qed.

Lemma run_timers_remove (fired : list Timer) (id : nat) (el : Element) (p : Page) :
  (exists tm, In tm fired /\ action tm = RemoveElement id) ->
  In el (document (fold_left (fun q tm => run_action (action tm) q) fired p)) ->
  elem_id el <> id.
Proof.
  revert p. induction fired as [|tm fired IH]; intros p [tm' [Hin Hact]] Hel.
  - destruct Hin.
  - cbn in Hel. destruct Hin as [->|Hin].
    + apply run_timers_shrink in Hel. rewrite Hact in Hel. cbn [run_action] in Hel.
      rewrite document_remove_node in Hel. apply In_detach in Hel. tauto.
    + apply (IH (run_action (action tm) p)); [eauto | exact Hel].
Qed.

Lemma advance_keeps (d : nat) (p : Page) (el : Element) :
  (forall tm, In tm (timers p) -> due tm <= now p + d ->
     action tm <> RemoveElement (elem_id el)) ->
  In el (document p) -> In el (document (advance d p)).
Proof.
  intros Hne Hin. unfold advance. apply run_timers_keep; [|exact Hin].
  intros tm Htm. apply filter_In in Htm as [Htm Hdue].
  apply Nat.leb_le in Hdue. exact (Hne tm Htm Hdue).
Qed.

Lemma advance_removes (d : nat) (p : Page) (id : nat) (el : Element) :
  (exists tm, In tm (timers p) /\ due tm <= now p + d /\ action tm = RemoveElement id) ->
  In el (document (advance d p)) -> elem_id el <> id.
Proof.
  intros [tm [Htm [Hdue Hact]]]. unfold advance. apply run_timers_remove.
  exists tm. split; [|exact Hact].
  apply filter_In. split; [exact Htm | apply Nat.leb_le; exact Hdue].
Qed.

Lemma banner_has_class (id : nat) : has_class banner_class (banner id) = true.
Proof. reflexivity. Qed.

Lemma banners_detach (id : nat) (l : list Element) :
  banners (detach id l) = detach id (banners l).
Proof.
  unfold banners, detach. induction l as [|x l IH]; [reflexivity|].
  cbn [List.filter].
  destruct (negb (Nat.eqb (elem_id x) id)) eqn:E1;
    destruct (has_class banner_class x) eqn:E2;
    cbn [List.filter]; rewrite ?E1, ?E2, ?IH; reflexivity.
Qed.

Lemma find_banners (l : list Element) :
  List.find (has_class banner_class) l = hd_error (banners l).
Proof.
  unfold banners. induction l as [|x l IH]; cbn; [reflexivity|].
  destruct (has_class banner_class x); [reflexivity | exact IH].
Qed.

Lemma allowed_is_image (item : DataTransferItem) :
  In (item_type item) allowedTypes -> is_image item = true.
Proof.
  unfold is_image. intros [H|[H|[H|[]]]]; rewrite <- H; reflexivity.
Qed.

Lemma without_first_banner_fields (p : Page) :
  let q := without_first_banner p in
  photoInput q = photoInput p /\ log q = log p /\ timers q = timers p /\
  now q = now p /\ next_id q = next_id p.
Proof.
  unfold without_first_banner.
  destruct (List.find (has_class banner_class) (document p)); cbn; tauto.
Qed.

Lemma without_first_banner_document (p : Page) :
  document (without_first_banner p) =
    match List.find (has_class banner_class) (document p) with
    | Some old => detach (elem_id old) (document p)
    | None => document p
    end.
Proof.
  unfold without_first_banner.
  destruct (List.find (has_class banner_class) (document p)) as [old|];
    [apply document_remove_node | reflexivity].
Qed.

Lemma banners_app (l1 l2 : list Element) :
  banners (l1 ++ l2) = (banners l1 ++ banners l2)%list.
Proof. apply List.filter_app. Qed.

(** C2 (as amended).  When the first clipboard item whose type contains
    [image] is a file of type [image/jpeg], [image/jpg] or [image/png], the
    paste handler completes normally with [photoInput.files] replaced by the
    one-element list holding that file; it raises no alert; the success banner
    is in the document; the banner that [querySelector] found before, if any,
    is gone, so that a document with at most one banner has exactly the new
    one; the banner stays while less than 3000 ms pass and is removed once
    3000 ms have passed. *)
Theorem paste_first_image_supported
    (p : Page) (pre post : list DataTransferItem) (item : DataTransferItem)
    (file : File) (input : FileInput) :
  (forall it, In it pre -> ~ contains (item_type it) "image") ->
  file_item item file ->
  In (item_type item) allowedTypes ->
  photoInput p = Some input ->
  fresh_ids p ->
  exists p',
    paste_handler (pre ++ item :: post)%list p = (Normal tt, p') /\
    photoInput p' = Some {| files := Some [file] |} /\
    log p' = (log p ++ [PreventDefault])%list /\
    In (banner (next_id p)) (document p') /\
    (forall old, List.find (has_class banner_class) (document p) = Some old ->
                 ~ In old (document p')) /\
    (length (banners (document p)) <= 1 ->
     banners (document p') = [banner (next_id p)]) /\
    (forall d, d < 3000 -> In (banner (next_id p)) (document (advance d p'))) /\
    (forall d, 3000 <= d -> ~ In (banner (next_id p)) (document (advance d p'))).
Proof.
  intros Hpre [Hfile Htype] Hallowed Hin [Hdoc Htimers].
  rewrite (paste_handler_skip pre _ p (not_image_items _ Hpre)).
  rewrite (paste_handler_accept p item file post input); auto using allowed_is_image.
  2:{ apply includes_spec. rewrite Htype. exact Hallowed. }
  rewrite (showPasteSuccess_run _ {| files := Some [file] |}) by reflexivity.
  cbv zeta.
  set (p1 := with_pasted_file file p).
  set (q := without_first_banner p1).
  destruct (without_first_banner_fields p1) as [Hq1 [Hq2 [Hq3 [Hq4 Hq5]]]].
  fold q in Hq1, Hq2, Hq3, Hq4, Hq5.
  pose proof (without_first_banner_document p1) as Hqdoc. fold q in Hqdoc.
  change (document p1) with (document p) in Hqdoc.
  change (next_id p1) with (next_id p).
  change (now p1) with (now p).
  change (timers p1) with (timers p).
  eexists. split; [reflexivity|].
  match goal with |- context [advance _ ?x] => set (p' := x) end.
  assert (Hdoc' : document p' = (doc_upto q ++ banner (next_id p) :: doc_rest q)%list).
  { unfold document. cbn. rewrite <- app_assoc. reflexivity. }
  assert (Hsub : forall el, In el (document p') ->
                            el = banner (next_id p) \/ In el (document q)).
  { intros el. rewrite Hdoc'. unfold document. rewrite !in_app_iff. cbn. intuition congruence. }
  assert (Hnew : In (banner (next_id p)) (document p')).
  { rewrite Hdoc'. apply in_app_iff. right. left. reflexivity. }
  split; [cbn; exact Hq1|].
  split; [cbn; exact Hq2|].
  split; [exact Hnew|].
  split.
  { intros old Hold Hmem. rewrite Hold in Hqdoc.
    apply find_some in Hold as [Hold _].
    destruct (Hsub old Hmem) as [->|Hq].
    - apply Hdoc in Hold. cbn in Hold. lia.
    - rewrite Hqdoc in Hq. apply In_detach in Hq. tauto. }
  split.
  { intros Hone. rewrite Hdoc', banners_app.
    change (banners (banner (next_id p) :: doc_rest q))
      with (banner (next_id p) :: banners (doc_rest q)).
    assert (Hnil : banners (document q) = []).
    { rewrite Hqdoc. rewrite find_banners.
      destruct (banners (document p)) as [|old [|x l]] eqn:E; cbn.
      - exact E.
      - rewrite banners_detach, E. unfold detach. cbn.
        rewrite Nat.eqb_refl. reflexivity.
      - cbn in Hone. lia. }
    unfold document in Hnil. rewrite banners_app in Hnil.
    apply app_eq_nil in Hnil as [-> ->]. reflexivity. }
  split.
  { intros d Hd. apply advance_keeps; [|exact Hnew].
    intros tm Htm Hdue. cbn in Htm, Hdue. apply in_app_iff in Htm as [Htm|[<-|[]]].
    - apply Htimers in Htm. destruct (action tm) as [id']. cbn. intros [=]. lia.
    - cbn in Hdue. lia. }
  { intros d Hd Hmem. refine (advance_removes d p' (next_id p) _ _ Hmem eq_refl).
    exists (banner_timer p). split; [|split].
    - cbn. apply in_app_iff. right. left. reflexivity.
    - cbn. lia.
    - reflexivity. }
Qed.

(** The theorem at work: markup followed by a PNG, pasted into the fresh page. *)
Lemma paste_first_image_supported_witness :
  file_item Sample.png_item Sample.png /\
  fresh_ids Sample.page /\
  exists p',
    paste_handler [Sample.html_item; Sample.png_item] Sample.page = (Normal tt, p') /\
    photoInput p' = Some {| files := Some [Sample.png] |} /\
    In (banner 0) (document p') /\
    ~ In (banner 0) (document (advance 3000 p')).
Proof.
  assert (Hfile : file_item Sample.png_item Sample.png) by (split; reflexivity).
  assert (Hfresh : fresh_ids Sample.page) by (split; intros ? []).
  split; [exact Hfile|]. split; [exact Hfresh|].
  destruct (paste_first_image_supported Sample.page [Sample.html_item] []
              Sample.png_item Sample.png {| files := Some [] |})
    as [p' [Hrun [Hfiles [_ [Hshown [_ [_ [_ Hgone]]]]]]]].
  - intros it [<-|[]]. apply is_image_false. reflexivity.
  - exact Hfile.
  - right. right. left. reflexivity.
  - reflexivity.
  - exact Hfresh.
  - exists p'. repeat split; try assumption. apply Hgone. lia.
Defined.

(** C2, as the specification words it, fails: a clipboard that holds a PNG file
    after a GIF contains a PNG image item, yet the handler stops at the GIF
    with the alert; the file input keeps its (empty) list and no banner is
    shown. *)
Lemma paste_image_after_unsupported_counterexample :
  In Sample.png_item [Sample.gif_item; Sample.png_item] /\
  file_item Sample.png_item Sample.png /\
  item_type Sample.png_item = "image/png" /\
  photoInput Sample.after_gif_paste = Some {| files := Some [] |} /\
  photoInput Sample.after_gif_paste <> Some {| files := Some [Sample.png] |} /\
  banners (document Sample.after_gif_paste) = [] /\
  log Sample.after_gif_paste = [PreventDefault; Alert unsupported_msg].
Proof.
  repeat split; try reflexivity.
  - right. left. reflexivity.
  - discriminate.
Qed.

(** C6 (as amended).  When the first clipboard item whose type contains
    [image] is a file ([getAsFile()] answers a file of that type) whose MIME
    type is none of [image/jpeg], [image/jpg], [image/png], the
    handler raises the fixed alert and stops: it completes normally, the items
    before it are skipped, and the page changes in nothing but the log, which
    gains [preventDefault] and the alert; the file input is as before. *)
Theorem paste_unsupported_image_alerts
    (p : Page) (pre post : list DataTransferItem) (item : DataTransferItem)
    (file : File) :
  (forall it, In it pre -> ~ contains (item_type it) "image") ->
  contains (item_type item) "image" ->
  file_item item file ->
  ~ In (item_type item) allowedTypes ->
  paste_handler (pre ++ item :: post)%list p =
    (Normal tt, set_log (log p ++ [PreventDefault; Alert unsupported_msg]) p) /\
  photoInput (snd (paste_handler (pre ++ item :: post)%list p)) = photoInput p.
Proof.
  intros Hpre Himg [Hfile Htype] Hbad.
  rewrite (paste_handler_skip pre _ p (not_image_items _ Hpre)).
  rewrite (paste_handler_reject p item file post).
  - split; reflexivity.
  - apply is_image_spec. exact Himg.
  - exact Hfile.
  - apply includes_false. rewrite Htype. exact Hbad.
Qed.

Lemma paste_unsupported_image_alerts_witness :
  file_item Sample.gif_item Sample.gif /\
  ~ In (item_type Sample.gif_item) allowedTypes /\
  paste_handler [Sample.html_item; Sample.gif_item; Sample.png_item] Sample.page =
    (Normal tt, set_log [PreventDefault; Alert unsupported_msg] Sample.page).
Proof.
  assert (Hfile : file_item Sample.gif_item Sample.gif) by (split; reflexivity).
  assert (Hbad : ~ In (item_type Sample.gif_item) allowedTypes).
  { apply includes_false. reflexivity. }
  split; [exact Hfile|]. split; [exact Hbad|].
  apply (paste_unsupported_image_alerts Sample.page [Sample.html_item]
           [Sample.png_item] Sample.gif_item Sample.gif).
  - intros it [<-|[]]. apply is_image_false. reflexivity.
  - apply is_image_spec. reflexivity.
  - exact Hfile.
  - exact Hbad.
Defined.

(** C6, as the specification words it, fails: a clipboard entry that is not a
    file can have a type string that contains [image] and is none of the three
    supported types; [getAsFile()] answers [null] for it, reading [file.type]
    throws, and the fixed alert is never raised. *)
Lemma paste_non_file_unsupported_counterexample :
  contains (item_type Scenario.image_url_item) "image" /\
  ~ In (item_type Scenario.image_url_item) allowedTypes /\
  getAsFile Scenario.image_url_item = None /\
  paste_handler [Scenario.image_url_item] Sample.page =
    (Throw (TypeError "type"), set_log [PreventDefault] Sample.page) /\
  ~ In (Alert unsupported_msg)
      (log (snd (paste_handler [Scenario.image_url_item] Sample.page))).
Proof.
  split; [apply is_image_spec; reflexivity|].
  split; [apply includes_false; reflexivity|].
  split; [reflexivity|]. split; [reflexivity|].
  intros [H|[]]. discriminate.
Qed.

(** C8.  When no clipboard item has [image] in its type string (an empty
    clipboard included), the paste handler completes normally and leaves the
    page exactly as it was: no [preventDefault], no alert, no banner, no
    change of the file input. *)
Theorem paste_without_image_is_noop (p : Page) (items : list DataTransferItem) :
  (forall it, In it items -> ~ contains (item_type it) "image") ->
  paste_handler items p = (Normal tt, p).
Proof.
  intros Hnone. rewrite <- (app_nil_r items).
  rewrite (paste_handler_skip items [] p (not_image_items _ Hnone)).
  reflexivity.
Qed.

Lemma paste_without_image_is_noop_witness :
  ~ contains (item_type Sample.html_item) "image" /\
  paste_handler [Sample.html_item] Sample.page = (Normal tt, Sample.page).
Proof.
  assert (Hnot : ~ contains (item_type Sample.html_item) "image").
  { apply is_image_false. reflexivity. }
  split; [exact Hnot|].
  apply paste_without_image_is_noop. intros it [<-|[]]. exact Hnot.
Defined.

(** ** The preview handlers *)

(** Induction on a JSON value that reaches the elements of an array. *)
Lemma JSON_array_ind (P : JSON -> Prop) :
  P JNull -> (forall b, P (JBool b)) -> (forall n, P (JNum n)) ->
  (forall s, P (JStr s)) ->
  (forall items, Forall P items -> P (JArr items)) ->
  (forall props, P (JObj props)) ->
  forall v, P v.
Proof.
  intros Hnull Hbool Hnum Hstr Harr Hobj.
  fix IH 1.
  intros [|b|n|s|items|props];
    [exact Hnull | apply Hbool | apply Hnum | apply Hstr | | apply Hobj].
  apply Harr. revert items. fix IHl 1.
  intros [|x items]; constructor; [apply IH | apply IHl].
Qed.

(** Where JavaScript's conversion yields a string, it is the string the
    handlers use. *)
Lemma ToString_agrees (v : JSON) : forall s, ToString v = Some s -> toString v = s.
Proof.
  induction v as [|[|]|n|t|items IHitems|props] using JSON_array_ind;
    cbn [ToString toString]; intros s Hs; try (injection Hs as <-; reflexivity).
  - destruct (_ items) as [strs|] eqn:Hel in Hs; [|discriminate].
    cbn in Hs. injection Hs as <-. f_equal.
    revert strs Hel. induction IHitems as [|x items Hx _ IHl]; intros strs Hel.
    + injection Hel as <-. reflexivity.
    + cbn [List.map].
      destruct (match x with JNull => Some "" | _ => ToString x end) as [sx|] eqn:Ex;
        [|discriminate].
      destruct (_ items) as [srest|] eqn:Hrest in Hel; [|discriminate].
      injection Hel as <-. f_equal; [|exact (IHl srest Hrest)].
      destruct x; try (injection Ex as <-; reflexivity); exact (Hx sx Ex).
  - destruct (props !! "toString"); [discriminate|]. injection Hs as <-. reflexivity.
Qed.

Lemma ToString_value_agrees (v : Value) (s : string) :
  ToString_value v = Some s -> toString_value v = s.
Proof.
  destruct v as [j|]; cbn [ToString_value].
  - unfold toString_value. apply ToString_agrees.
  - intros [= <-]. reflexivity.
Qed.

Lemma get_field (data : JSON) (k : string) (p : Page) :
  data <> JNull -> get data k p = (Normal (field data k), p).
Proof. destruct data; intros H; try reflexivity. congruence. Qed.

Lemma on_rejected_run (e : JS.Error) (p : Page) (btn : Button) :
  previewBtn p = Some btn ->
  on_rejected e p =
    (Normal tt,
     set_log (log p ++ [Alert failure_msg; ConsoleError "Error:" e]) (restored p)).
Proof.
  intros Hbtn. unfold on_rejected, set_disabled, set_textContent. run.
  rewrite Hbtn. run. rewrite <- app_assoc. reflexivity.
Qed.

(** The three ways out of the fulfilment callback on a body that is not
    [null], as one equation. *)
Lemma on_fulfilled_nonnull (data : JSON) (p : Page) (btn : Button) :
  data <> JNull ->
  previewBtn p = Some btn ->
  on_fulfilled data p =
    if truthy (field data "error") then
      (Normal tt,
       set_log (log p ++ [Alert (toString_value (field data "error"))]) (restored p))
    else if truthy (field data "success") && truthy (field data "preview_base64") then
      let uri := data_uri (field data "preview_mime_type") (field data "preview_base64") in
      match previewImage p, previewArea p with
      | None, _ => (Throw (TypeError "src"), restored p)
      | Some _, None =>
          (Throw (TypeError "style"), set_previewImage (Some {| src := uri |}) (restored p))
      | Some _, Some _ => (Normal tt, rendered uri (restored p))
      end
    else (Normal tt, restored p).
Proof.
  intros Hnn Hbtn. unfold on_fulfilled, set_disabled, set_textContent.
  run. rewrite Hbtn. run. rewrite get_field by exact Hnn.
  destruct (truthy (field data "error")); [reflexivity|].
  rewrite get_field by exact Hnn.
  destruct (truthy (field data "success")) eqn:Hs; cbn [andb].
  - rewrite get_field by exact Hnn.
    destruct (truthy (field data "preview_base64")); [|reflexivity].
    rewrite !get_field by exact Hnn. cbn.
    destruct (previewImage p); [|reflexivity].
    cbn. destruct (previewArea p); reflexivity.
  - rewrite Hs. reflexivity.
Qed.

Lemma on_fulfilled_null (p : Page) (btn : Button) :
  previewBtn p = Some btn ->
  on_fulfilled JNull p = (Throw (TypeError "error"), restored p).
Proof.
  intros Hbtn. unfold on_fulfilled, set_disabled, set_textContent. run.
  rewrite Hbtn. reflexivity.
Qed.

(** Whatever the body, the fulfilment callback leaves the button restored. *)
Lemma on_fulfilled_button (data : JSON) (p : Page) (btn : Button) :
  previewBtn p = Some btn ->
  previewBtn (snd (on_fulfilled data p)) =
    Some {| disabled := false; textContent := idle_label |}.
Proof.
  intros Hbtn.
  assert (Hcase : data = JNull \/ data <> JNull)
    by (destruct data; (left; reflexivity) || (right; discriminate)).
  destruct Hcase as [->|Hnn].
  - rewrite (on_fulfilled_null p btn Hbtn). reflexivity.
  - rewrite (on_fulfilled_nonnull data p btn Hnn Hbtn).
    destruct (truthy (field data "error")); [reflexivity|].
    destruct (truthy (field data "success") && truthy (field data "preview_base64"));
      [|reflexivity].
    cbv zeta. destruct (previewImage p), (previewArea p); reflexivity.
Qed.

(** Every way through the click listener, as one equation. *)
Lemma click_handler_cases (p : Page) :
  click_handler p =
    match photoInput p with
    | None => (Throw (TypeError "files"), p)
    | Some input =>
        match files input with
        | None | Some [] => (Normal tt, set_log (log p ++ [Alert no_file_msg]) p)
        | Some (photo :: _) =>
            match checked_bg_color p with
            | None => (Throw (TypeError "value"), p)
            | Some radio =>
                match previewBtn p with
                | None => (Throw (TypeError "disabled"), p)
                | Some _ => (Normal tt, pending photo (value radio) p)
                end
            end
        end
    end.
Proof.
  unfold click_handler, checked_bg_color, querySelector_checked,
    set_disabled, set_textContent, pending, formData.
  run. destruct (photoInput p) as [input|]; [|reflexivity].
  run. destruct (files input) as [[|photo rest]|]; try reflexivity.
  run. destruct (List.find _ (inputs p)) as [radio|]; [|reflexivity].
  run. destruct (previewBtn p); reflexivity.
Qed.

Lemma find_none_intro {A : Type} (f : A -> bool) (l : list A) :
  (forall x, In x l -> f x = false) -> List.find f l = None.
Proof.
  induction l as [|x l IH]; intros H; cbn; [reflexivity|].
  rewrite (H x) by (left; reflexivity). apply IH. intros y Hy. apply H. right. exact Hy.
Qed.

Lemma on_settle_button (o : Outcome) (p : Page) (btn : Button) :
  previewBtn p = Some btn ->
  exists p2, on_settle o p = (Normal tt, p2) /\
             previewBtn p2 = Some {| disabled := false; textContent := idle_label |}.
Proof.
  intros Hbtn. destruct o as [e|e|data]; cbn [on_settle].
  - rewrite (on_rejected_run e p btn Hbtn). eexists. split; reflexivity.
  - rewrite (on_rejected_run e p btn Hbtn). eexists. split; reflexivity.
  - unfold try_catch. pose proof (on_fulfilled_button data p btn Hbtn) as Hb.
    destruct (on_fulfilled data p) as [[[]|e] p']; cbn in Hb.
    + exists p'. split; [reflexivity | exact Hb].
    + rewrite (on_rejected_run e p' _ Hb). eexists. split; reflexivity.
Qed.

(** C3 (as amended).  When a click issues the request, then however the
    request settles (network failure, parse failure, or any parsed body) the
    settlement completes normally with the button enabled and labelled with the
    fixed text [idle_label]; the label the button had before the click plays no
    part. *)
Theorem settle_reenables_control
    (p : Page) (o : Outcome) (body : list (string * FormValue)) :
  log (snd (click_handler p)) = (log p ++ [Fetch "/preview" "POST" body])%list ->
  exists p2,
    on_settle o (snd (click_handler p)) = (Normal tt, p2) /\
    previewBtn p2 = Some {| disabled := false; textContent := idle_label |}.
Proof.
  intros Hreq.
  assert (Hself : forall e : Effect, log p <> (log p ++ [e])%list).
  { intros e H. apply (f_equal (@length _)) in H. rewrite length_app in H.
    cbn in H. lia. }
  rewrite click_handler_cases in *.
  destruct (photoInput p) as [input|]; [|exfalso; exact (Hself _ Hreq)].
  destruct (files input) as [[|photo rest]|].
  - cbn in Hreq. apply app_inv_head in Hreq. discriminate.
  - destruct (checked_bg_color p) as [radio|]; [|exfalso; exact (Hself _ Hreq)].
    destruct (previewBtn p) as [btn|]; [|exfalso; exact (Hself _ Hreq)].
    apply (on_settle_button o _ {| disabled := true; textContent := busy_label |}).
    reflexivity.
  - cbn in Hreq. apply app_inv_head in Hreq. discriminate.
Qed.

Lemma settle_reenables_control_witness :
  log Sample.in_flight =
    [Fetch "/preview" "POST" (formData Sample.png "blue")] /\
  exists p2,
    on_settle (Parsed (JObj Sample.error_props)) Sample.in_flight = (Normal tt, p2) /\
    previewBtn p2 = Some {| disabled := false; textContent := idle_label |}.
Proof.
  split; [reflexivity|].
  apply (settle_reenables_control Sample.ready (Parsed (JObj Sample.error_props))
           (formData Sample.png "blue")).
  reflexivity.
Defined.

(** C3, as the specification words it, fails: the button of the sample page
    reads [Preview] before the click; after the request has settled it reads
    [idle_label], not what it read before. *)
Lemma settle_label_counterexample :
  log Sample.in_flight =
    (log Sample.ready ++ [Fetch "/preview" "POST" (formData Sample.png "blue")])%list /\
  option_map textContent (previewBtn Sample.ready) = Some "Preview" /\
  option_map disabled (previewBtn Sample.after_failure) = Some false /\
  option_map textContent (previewBtn Sample.after_failure) = Some idle_label /\
  option_map textContent (previewBtn Sample.after_failure)
    <> option_map textContent (previewBtn Sample.ready).
Proof.
  repeat split; try reflexivity. discriminate.
Qed.

(** C5.  A click while the file input holds no file ([files] absent or empty)
    raises the alert and stops: the handler completes normally, the page
    changes in nothing but the log, which gains exactly that alert, so no
    request is issued. *)
Theorem click_without_file_alerts (p : Page) (input : FileInput) :
  photoInput p = Some input ->
  files input = None \/ files input = Some [] ->
  click_handler p = (Normal tt, set_log (log p ++ [Alert no_file_msg]) p) /\
  (forall url method body,
     In (Fetch url method body) (log (snd (click_handler p))) ->
     In (Fetch url method body) (log p)).
Proof.
  intros Hin Hfiles. rewrite click_handler_cases, Hin.
  destruct Hfiles as [-> | ->]; (split; [reflexivity|]);
    intros url method body; cbn; rewrite in_app_iff; cbn;
    intros [H|[H|[]]]; [exact H | discriminate | exact H | discriminate].
Qed.

Lemma click_without_file_alerts_witness :
  files {| files := Some [] |} = Some [] /\
  click_handler Sample.page = (Normal tt, set_log [Alert no_file_msg] Sample.page).
Proof.
  split; [reflexivity|].
  apply (proj1 (click_without_file_alerts Sample.page {| files := Some [] |}
                  eq_refl (or_intror eq_refl))).
Defined.

(** C7.  A click with a file selected but no checked input named [bg_color]
    throws a [TypeError] (reading [value] of [null]) and leaves the page
    exactly as it was: the button is not disabled, no request is issued, the
    preview is untouched. *)
Theorem click_without_checked_radio_throws
    (p : Page) (input : FileInput) (photo : File) (rest : list File) :
  photoInput p = Some input ->
  files input = Some (photo :: rest) ->
  (forall r, In r (inputs p) -> name r = "bg_color" -> checked r = false) ->
  click_handler p = (Throw (TypeError "value"), p).
Proof.
  intros Hin Hfiles Hnone. rewrite click_handler_cases, Hin, Hfiles.
  unfold checked_bg_color. rewrite find_none_intro; [reflexivity|].
  intros r Hr. destruct (String.eqb (name r) "bg_color") eqn:E; [|reflexivity].
  apply String.eqb_eq in E. cbn. exact (Hnone r Hr E).
Qed.

Lemma click_without_checked_radio_throws_witness :
  checked_bg_color Sample.unchecked = None /\
  click_handler Sample.unchecked = (Throw (TypeError "value"), Sample.unchecked).
Proof.
  split; [reflexivity|].
  apply (click_without_checked_radio_throws Sample.unchecked
           {| files := Some [Sample.png] |} Sample.png []).
  - reflexivity.
  - reflexivity.
  - intros r [<-|[]] _. reflexivity.
Defined.

(** C1 (as amended).  When the body is an object whose [error] is absent or
    falsy, whose [success] is [true], whose [preview_base64] is a non-empty
    string and whose [preview_mime_type] is a string, and the preview elements
    exist, the settlement completes normally with the image source set to
    [data:] ++ mime ++ [;base64,] ++ base64, the container displayed as
    [block] and scrolled into view; for the body
    [{success:true, preview_base64:"QQ==", preview_mime_type:"image/png"}] the
    source is [data:image/png;base64,QQ==]. *)
Theorem preview_success_renders
    (p : Page) (props : gmap string JSON) (mime b64 : string)
    (btn : Button) (img : Image) (area : Container) :
  previewBtn p = Some btn ->
  previewImage p = Some img ->
  previewArea p = Some area ->
  truthy (props !! "error") = false ->
  props !! "success" = Some (JBool true) ->
  props !! "preview_base64" = Some (JStr b64) ->
  b64 <> "" ->
  props !! "preview_mime_type" = Some (JStr mime) ->
  let after := snd (on_settle (Parsed (JObj props)) p) in
  fst (on_settle (Parsed (JObj props)) p) = Normal tt /\
  previewImage after = Some {| src := "data:" ++ mime ++ ";base64," ++ b64 |} /\
  previewArea after = Some {| display := "block" |} /\
  log after = (log p ++ [ScrollIntoView "smooth" "nearest"])%list /\
  previewImage (snd (on_settle (Parsed (JObj Sample.success_props)) p))
    = Some {| src := "data:image/png;base64,QQ==" |}.
Proof.
  intros Hbtn Himg Harea Herr Hok Hb64 Hne Hmime after. subst after.
  cbn [on_settle]. unfold try_catch.
  rewrite !(on_fulfilled_nonnull _ p btn) by (discriminate || exact Hbtn).
  unfold field. rewrite Herr, Hok, Hb64, Hmime, Himg, Harea.
  assert (Ht : truthy (Some (JStr b64)) = true).
  { unfold truthy. apply negb_true_iff. apply String.eqb_neq. exact Hne. }
  rewrite Ht. repeat split; reflexivity.
Qed.

(** The scenario of the specification, after a click on the sample page. *)
Lemma preview_success_renders_witness :
  previewImage (snd (on_settle (Parsed (JObj Sample.success_props)) Sample.in_flight))
    = Some {| src := "data:image/png;base64,QQ==" |} /\
  previewArea (snd (on_settle (Parsed (JObj Sample.success_props)) Sample.in_flight))
    = Some {| display := "block" |}.
Proof.
  destruct (preview_success_renders Sample.in_flight Sample.success_props
              "image/png" "QQ=="
              {| disabled := true; textContent := busy_label |}
              {| src := "" |} {| display := "none" |})
    as [_ [Hsrc [Harea _]]]; try reflexivity.
  - discriminate.
  - split; [exact Hsrc | exact Harea].
Defined.

(** C1, as the specification words it, fails: in the body
    [{success:true, preview_base64:"", preview_mime_type:"image/png"}] there is
    no [error], [success] is [true] and [preview_base64] is present, yet the
    handler renders nothing: the source is not [data:image/png;base64,], the
    container stays hidden and nothing is scrolled. *)
Lemma preview_empty_base64_counterexample :
  Sample.empty_preview_props !! "error" = None /\
  Sample.empty_preview_props !! "success" = Some (JBool true) /\
  Sample.empty_preview_props !! "preview_base64" = Some (JStr "") /\
  Sample.empty_preview_props !! "preview_mime_type" = Some (JStr "image/png") /\
  previewImage Sample.after_empty_preview = Some {| src := "" |} /\
  previewImage Sample.after_empty_preview
    <> Some {| src := "data:image/png;base64," |} /\
  previewArea Sample.after_empty_preview = Some {| display := "none" |} /\
  log Sample.after_empty_preview = log Sample.in_flight.
Proof.
  repeat split; try reflexivity. discriminate.
Qed.

(** C4 (as amended).  When the body is an object whose [error] is truthy and
    converts to the string [msg] (the conversion throws only for an object
    with an own [toString] property, or an array holding one), the settlement
    completes normally, alerts with [msg] and, apart from restoring the button,
    does nothing else: image source and container display are as before. *)
Theorem preview_error_alerts
    (p : Page) (props : gmap string JSON) (err : JSON) (msg : string)
    (btn : Button) :
  previewBtn p = Some btn ->
  props !! "error" = Some err ->
  truthy (Some err) = true ->
  ToString err = Some msg ->
  on_settle (Parsed (JObj props)) p =
    (Normal tt, set_log (log p ++ [Alert msg]) (restored p)) /\
  previewImage (snd (on_settle (Parsed (JObj props)) p)) = previewImage p /\
  previewArea (snd (on_settle (Parsed (JObj props)) p)) = previewArea p.
Proof.
  intros Hbtn Herr Ht Hmsg. cbn [on_settle]. unfold try_catch.
  rewrite (on_fulfilled_nonnull _ p btn) by (discriminate || exact Hbtn).
  unfold field. rewrite Herr, Ht.
  rewrite (ToString_value_agrees (Some err) msg Hmsg).
  repeat split; reflexivity.
Qed.

Lemma preview_error_alerts_witness :
  truthy (Some (JStr "no face found")) = true /\
  ToString (JStr "no face found") = Some "no face found" /\
  on_settle (Parsed (JObj Sample.error_props)) Sample.in_flight =
    (Normal tt,
     set_log (log Sample.in_flight ++ [Alert "no face found"])
       (restored Sample.in_flight)).
Proof.
  split; [reflexivity|]. split; [reflexivity|].
  apply (proj1 (preview_error_alerts Sample.in_flight Sample.error_props
                  (JStr "no face found") "no face found"
                  {| disabled := true; textContent := busy_label |}
                  eq_refl eq_refl eq_refl eq_refl)).
Defined.

(** C4, as the specification words it, fails: the body
    [{error:"", success:true, preview_base64:"QQ==", preview_mime_type:"image/png"}]
    contains an [error] field, yet no alert is raised and the preview is
    rendered. *)
Lemma preview_empty_error_counterexample :
  Sample.empty_error_props !! "error" = Some (JStr "") /\
  log Sample.after_empty_error =
    (log Sample.in_flight ++ [ScrollIntoView "smooth" "nearest"])%list /\
  previewImage Sample.after_empty_error = Some {| src := "data:image/png;base64,QQ==" |} /\
  previewImage Sample.after_empty_error <> previewImage Sample.in_flight /\
  previewArea Sample.after_empty_error = Some {| display := "block" |} /\
  previewArea Sample.after_empty_error <> previewArea Sample.in_flight.
Proof.
  repeat split; try reflexivity; discriminate.
Qed.

(** C9 (as amended).  When the parsed body is not [null], has no truthy
    [error] and does not have both a truthy [success] and a truthy
    [preview_base64], the settlement completes normally and only restores the
    button: no alert or other effect, image and container as before. *)
Theorem preview_unrecognised_body_is_silent (p : Page) (data : JSON) (btn : Button) :
  previewBtn p = Some btn ->
  data <> JNull ->
  truthy (field data "error") = false ->
  truthy (field data "success") && truthy (field data "preview_base64") = false ->
  on_settle (Parsed data) p = (Normal tt, restored p) /\
  log (restored p) = log p /\
  previewImage (restored p) = previewImage p /\
  previewArea (restored p) = previewArea p.
Proof.
  intros Hbtn Hnn Herr Hcond. cbn [on_settle]. unfold try_catch.
  rewrite (on_fulfilled_nonnull _ p btn Hnn Hbtn), Herr, Hcond.
  repeat split; reflexivity.
Qed.

Lemma preview_unrecognised_body_is_silent_witness :
  JObj Sample.failure_props <> JNull /\
  on_settle (Parsed (JObj Sample.failure_props)) Sample.in_flight =
    (Normal tt, restored Sample.in_flight).
Proof.
  split; [discriminate|].
  apply (proj1 (preview_unrecognised_body_is_silent Sample.in_flight
                  (JObj Sample.failure_props)
                  {| disabled := true; textContent := busy_label |}
                  eq_refl ltac:(discriminate) eq_refl eq_refl)).
Defined.

(** C9, as the specification words it, fails: the parsed body [null] has no
    truthy [error] and no truthy [success]; reading its [error] throws, the
    rejection callback runs, and the generic alert is raised. *)
Lemma preview_null_body_counterexample :
  truthy (field JNull "error") = false /\
  truthy (field JNull "success") && truthy (field JNull "preview_base64") = false /\
  on_fulfilled JNull Sample.in_flight
    = (Throw (TypeError "error"), restored Sample.in_flight) /\
  log Sample.after_null =
    (log Sample.in_flight
       ++ [Alert failure_msg; ConsoleError "Error:" (TypeError "error")])%list.
Proof.
  repeat split; reflexivity.
Qed.



(** ** Node identities stay fresh *)

Lemma fresh_ids_same (p q : Page) :
  document q = document p -> timers q = timers p -> next_id q = next_id p ->
  fresh_ids p -> fresh_ids q.
Proof. unfold fresh_ids. intros -> -> ->. tauto. Qed.

Lemma fresh_ids_showPasteSuccess (p : Page) :
  fresh_ids p -> fresh_ids (snd (showPasteSuccess p)).
Proof.
  intros [Hdoc Htimers]. destruct (photoInput p) as [input|] eqn:Hin.
  - rewrite (showPasteSuccess_run p input Hin). cbv zeta.
    destruct (without_first_banner_fields p) as [_ [_ [_ [_ Hid]]]].
    pose proof (without_first_banner_document p) as Hq.
    set (q := without_first_banner p) in *.
    assert (Hsub : forall el, In el (document q) -> In el (document p)).
    { intros el. rewrite Hq. destruct (List.find _ (document p)); [|tauto].
      rewrite In_detach. tauto. }
    split.
    + intros el. unfold document. cbn. rewrite <- app_assoc.
      rewrite in_app_iff. cbn. intros [H|[<-|H]].
      * assert (Hq' : In el (document q))
          by (unfold document; apply in_app_iff; tauto).
        specialize (Hdoc el (Hsub el Hq')). lia.
      * cbn. lia.
      * assert (Hq' : In el (document q))
          by (unfold document; apply in_app_iff; tauto).
        specialize (Hdoc el (Hsub el Hq')). lia.
    + intros tm. cbn. rewrite in_app_iff. intros [H|[<-|[]]].
      * specialize (Htimers tm H). destruct (action tm). lia.
      * cbn. lia.
  - unfold showPasteSuccess, querySelector_class, createElement. run.
    destruct (List.find _ (document p)) as [old|] eqn:Hfind; run; rewrite Hin; cbn.
    + split.
      * intros el. change (In el (document (remove_node (elem_id old) p)) -> elem_id el < S (next_id p)).
        rewrite document_remove_node, In_detach. intros [H _].
        specialize (Hdoc el H). lia.
      * intros tm H. specialize (Htimers tm H). destruct (action tm). cbn. lia.
    + split.
      * intros el H. specialize (Hdoc el H). cbn. lia.
      * intros tm H. specialize (Htimers tm H). destruct (action tm). cbn. lia.
Qed.

(** The paste handler keeps identities fresh, whichever way it ends. *)
Lemma fresh_ids_paste_handler (items : list DataTransferItem) (p : Page) :
  fresh_ids p -> fresh_ids (snd (paste_handler items p)).
Proof.
  intros Hfresh. induction items as [|item rest IH]; cbn [paste_handler]; [exact Hfresh|].
  destruct (is_image item); [|exact IH].
  run. destruct (getAsFile item) as [file|]; run;
    [|eapply fresh_ids_same; [..|exact Hfresh]; reflexivity].
  destruct (Str.includes allowedTypes (file_type file)); run;
    [|eapply fresh_ids_same; [..|exact Hfresh]; reflexivity].
  destruct (photoInput p) as [input|]; run;
    [|eapply fresh_ids_same; [..|exact Hfresh]; reflexivity].
  apply (fresh_ids_showPasteSuccess (with_pasted_file file p)).
  eapply fresh_ids_same; [..|exact Hfresh]; reflexivity.
Qed.

(** The passing of time keeps identities fresh. *)
Lemma fresh_ids_advance (d : nat) (p : Page) :
  fresh_ids p -> fresh_ids (advance d p).
Proof.
  intros [Hdoc Htimers]. unfold advance.
  set (fired := List.filter _ (timers p)).
  set (start := set_clock _ _ p).
  assert (Hstart : fresh_ids start).
  { split; [exact Hdoc|]. intros tm Htm. cbn in Htm.
    apply filter_In in Htm as [Htm _]. exact (Htimers tm Htm). }
  clearbody start fired. clear Hdoc Htimers. revert start Hstart.
  induction fired as [|tm fired IH]; intros start Hstart; cbn; [exact Hstart|].
  apply IH. destruct Hstart as [Hdoc Htimers]. destruct (action tm) as [id].
  split; [|exact Htimers].
  intros el. cbn [run_action]. rewrite document_remove_node, In_detach.
  intros [H _]. exact (Hdoc el H).
Qed.

(** * Further properties of the handlers *)

(** ** The paste listener, case by case *)

(** What the listener does once it stands on an entry whose type contains
    [image]: the four ways out of lines 16-38. *)
Lemma paste_handler_image (item : DataTransferItem) (post : list DataTransferItem)
    (p : Page) :
  is_image item = true ->
  paste_handler (item :: post) p =
    match getAsFile item with
    | None => (Throw (TypeError "type"), set_log (log p ++ [PreventDefault]) p)
    | Some file =>
        if Str.includes allowedTypes (file_type file) then
          match photoInput p with
          | None => (Throw (TypeError "files"), set_log (log p ++ [PreventDefault]) p)
          | Some _ => showPasteSuccess (with_pasted_file file p)
          end
        else
          (Normal tt, set_log (log p ++ [PreventDefault; Alert unsupported_msg]) p)
    end.
Proof.
  intros Himg. cbn [paste_handler]. rewrite Himg. run.
  destruct (getAsFile item) as [file|]; [|reflexivity].
  run. destruct (Str.includes allowedTypes (file_type file)); run.
  - destruct (photoInput p); reflexivity.
  - rewrite <- app_assoc. reflexivity.
Qed.

(** Either no entry passes the image test, or there is a first one. *)
Lemma first_image_split (items : list DataTransferItem) :
  Forall (fun it => is_image it = false) items \/
  exists pre item post,
    items = (pre ++ item :: post)%list /\
    Forall (fun it => is_image it = false) pre /\
    is_image item = true.
Proof.
  induction items as [|x items IH].
  - left. constructor.
  - destruct (is_image x) eqn:Hx.
    + right. exists [], x, items. repeat split; [constructor | exact Hx].
    + destruct IH as [Hnone | [pre [item [post [-> [Hpre Himg]]]]]].
      * left. constructor; assumption.
      * right. exists (x :: pre), item, post.
        repeat split; [constructor; assumption | exact Himg].
Qed.

Lemma supported_paste_run (items : list DataTransferItem) (file : File)
    (p : Page) (input : FileInput) :
  supported_paste items file ->
  photoInput p = Some input ->
  paste_handler items p = showPasteSuccess (with_pasted_file file p).
Proof.
  intros [pre [item [post [-> [Hpre [[Hfile Htype] Hok]]]]]] Hin.
  rewrite (paste_handler_skip pre _ p (not_image_items _ Hpre)).
  apply (paste_handler_accept p item file post input);
    [apply allowed_is_image; exact Hok | exact Hfile | | exact Hin].
  apply includes_spec. rewrite Htype. exact Hok.
Qed.

Lemma without_first_banner_preview (p : Page) :
  preview_part (without_first_banner p) = preview_part p.
Proof.
  unfold without_first_banner.
  destruct (List.find (has_class banner_class) (document p)); reflexivity.
Qed.

(** [showPasteSuccess] on a page with a file input: what it keeps. *)
Lemma showPasteSuccess_keeps (p : Page) (input : FileInput) :
  photoInput p = Some input ->
  fst (showPasteSuccess p) = Normal tt /\
  photoInput (snd (showPasteSuccess p)) = photoInput p /\
  log (snd (showPasteSuccess p)) = log p /\
  preview_part (snd (showPasteSuccess p)) = preview_part p.
Proof.
  intros Hin. rewrite (showPasteSuccess_run p input Hin). cbv zeta.
  destruct (without_first_banner_fields p) as [H1 [H2 [_ [H4 _]]]].
  pose proof (without_first_banner_preview p) as H5.
  repeat split; try assumption.
  unfold preview_part in *. cbn. congruence.
Qed.

Lemma paste_handler_no_image (items : list DataTransferItem) (p : Page) :
  Forall (fun it => is_image it = false) items ->
  paste_handler items p = (Normal tt, p).
Proof.
  intros Hnone. rewrite <- (app_nil_r items).
  exact (paste_handler_skip items [] p Hnone).
Qed.

Lemma log_grows_not (l : list Effect) (e : Effect) (rest : list Effect) :
  l <> (l ++ e :: rest)%list.
Proof.
  intros H. apply (f_equal (@length _)) in H. rewrite length_app in H.
  cbn in H. lia.
Qed.

(** X5.  Whatever the clipboard holds and however the listener ends, a paste
    leaves the preview side of the page alone (button, preview image and
    container, colour inputs, clock, listeners), and all it adds to the log is
    nothing, or [preventDefault], or [preventDefault] followed by the fixed
    alert: it never issues a request, scrolls or writes to the console. *)
Theorem paste_handler_frame (items : list DataTransferItem) (p : Page) :
  preview_part (snd (paste_handler items p)) = preview_part p /\
  (log (snd (paste_handler items p)) = log p \/
   log (snd (paste_handler items p)) = (log p ++ [PreventDefault])%list \/
   log (snd (paste_handler items p))
     = (log p ++ [PreventDefault; Alert unsupported_msg])%list).
Proof.
  destruct (first_image_split items) as [Hnone | [pre [item [post [-> [Hpre Himg]]]]]].
  - rewrite (paste_handler_no_image items p Hnone).
    split; [reflexivity | left; reflexivity].
  - rewrite (paste_handler_skip pre _ p Hpre), (paste_handler_image item post p Himg).
    destruct (getAsFile item) as [file|]; [|split; [reflexivity | right; left; reflexivity]].
    destruct (Str.includes allowedTypes (file_type file));
      [|split; [reflexivity | right; right; reflexivity]].
    destruct (photoInput p) as [input|]; [|split; [reflexivity | right; left; reflexivity]].
    destruct (showPasteSuccess_keeps (with_pasted_file file p) {| files := Some [file] |} eq_refl)
      as [_ [_ [Hlog Hprev]]].
    split; [rewrite Hprev; reflexivity | right; left; rewrite Hlog; reflexivity].
Qed.

(** X10.  The default paste action is prevented exactly when some clipboard
    entry has [image] in its type string, whether the image is then accepted,
    rejected, or the listener throws. *)
Theorem paste_prevents_default_iff_image (items : list DataTransferItem) (p : Page) :
  (exists it, In it items /\ contains (item_type it) "image") <->
  (exists rest,
     log (snd (paste_handler items p)) = (log p ++ PreventDefault :: rest)%list).
Proof.
  destruct (first_image_split items) as [Hnone | [pre [item [post [-> [Hpre Himg]]]]]].
  - rewrite (paste_handler_no_image items p Hnone). cbn. split.
    + intros [it [Hin Hc]]. exfalso.
      apply (proj1 (List.Forall_forall _ _) Hnone it) in Hin.
      apply is_image_spec in Hc. congruence.
    + intros [rest Hrest]. exfalso. exact (log_grows_not _ _ _ Hrest).
  - split.
    + intros _. rewrite (paste_handler_skip pre _ p Hpre),
        (paste_handler_image item post p Himg).
      destruct (getAsFile item) as [file|]; [|exists []; reflexivity].
      destruct (Str.includes allowedTypes (file_type file));
        [|exists [Alert unsupported_msg]; reflexivity].
      destruct (photoInput p) as [input|]; [|exists []; reflexivity].
      destruct (showPasteSuccess_keeps (with_pasted_file file p)
                  {| files := Some [file] |} eq_refl) as [_ [_ [Hlog _]]].
      exists []. rewrite Hlog. reflexivity.
    + intros _. exists item. split; [|apply is_image_spec; exact Himg].
      apply in_app_iff. right. left. reflexivity.
Qed.

Lemma paste_prevents_default_iff_image_witness :
  contains (item_type Scenario.image_url_item) "image" /\
  exists rest,
    log (snd (paste_handler [Sample.html_item; Scenario.image_url_item] Sample.page))
    = (log Sample.page ++ PreventDefault :: rest)%list.
Proof.
  assert (Hc : contains (item_type Scenario.image_url_item) "image")
    by (apply is_image_spec; reflexivity).
  split; [exact Hc|].
  apply (proj1 (paste_prevents_default_iff_image
                  [Sample.html_item; Scenario.image_url_item] Sample.page)).
  exists Scenario.image_url_item. split; [right; left; reflexivity | exact Hc].
Defined.

(** X13.  Only the first entry whose type contains [image] counts: the
    entries after it have no influence on the outcome, whatever they are. *)
Theorem paste_ignores_items_after_first_image
    (before after : list DataTransferItem) (item : DataTransferItem) (p : Page) :
  contains (item_type item) "image" ->
  paste_handler (before ++ item :: after)%list p = paste_handler (before ++ [item])%list p.
Proof.
  intros Hc. apply is_image_spec in Hc.
  induction before as [|x before IH].
  - cbn [app]. rewrite !(paste_handler_image item _ p Hc). reflexivity.
  - cbn [app]. destruct (is_image x) eqn:Hx.
    + rewrite !(paste_handler_image x _ p Hx). reflexivity.
    + cbn [paste_handler]. rewrite Hx. exact IH.
Qed.

Lemma paste_ignores_items_after_first_image_witness :
  contains (item_type Sample.gif_item) "image" /\
  paste_handler [Sample.html_item; Sample.gif_item; Sample.png_item] Sample.page
    = paste_handler [Sample.html_item; Sample.gif_item] Sample.page.
Proof.
  assert (Hc : contains (item_type Sample.gif_item) "image")
    by (apply is_image_spec; reflexivity).
  split; [exact Hc|].
  exact (paste_ignores_items_after_first_image [Sample.html_item] [Sample.png_item]
           Sample.gif_item Sample.page Hc).
Defined.

(** X9.  After a paste the file input either holds what it held, or holds
    exactly one file, and that file is what [getAsFile()] returned for a
    clipboard entry whose type contains [image]: no paste leaves several files
    in the input. *)
Theorem paste_sets_at_most_one_file (items : list DataTransferItem) (p : Page) :
  photoInput (snd (paste_handler items p)) = photoInput p \/
  exists item file,
    In item items /\ contains (item_type item) "image" /\
    getAsFile item = Some file /\
    photoInput (snd (paste_handler items p)) = Some {| files := Some [file] |}.
Proof.
  destruct (first_image_split items) as [Hnone | [pre [item [post [-> [Hpre Himg]]]]]].
  - rewrite (paste_handler_no_image items p Hnone). left. reflexivity.
  - rewrite (paste_handler_skip pre _ p Hpre), (paste_handler_image item post p Himg).
    destruct (getAsFile item) as [file|] eqn:Hfile; [|left; reflexivity].
    destruct (Str.includes allowedTypes (file_type file)); [|left; reflexivity].
    destruct (photoInput p) as [input|] eqn:Hpi; [|left; exact Hpi].
    destruct (showPasteSuccess_keeps (with_pasted_file file p)
                {| files := Some [file] |} eq_refl) as [_ [Hin _]].
    right. exists item, file. repeat split.
    + apply in_app_iff. right. left. reflexivity.
    + apply is_image_spec. exact Himg.
    + exact Hfile.
    + rewrite Hin. reflexivity.
Qed.

(** X11.  When the first entry whose type contains [image] is not a file
    ([getAsFile()] answers [null]), the listener throws a [TypeError] on
    reading [file.type]: the default action has been prevented, no alert is
    raised, the file input and the document are untouched, and the entries
    after it are not looked at. *)
Theorem paste_non_file_image_throws
    (p : Page) (pre post : list DataTransferItem) (item : DataTransferItem) :
  (forall it, In it pre -> ~ contains (item_type it) "image") ->
  contains (item_type item) "image" ->
  getAsFile item = None ->
  paste_handler (pre ++ item :: post)%list p =
    (Throw (TypeError "type"), set_log (log p ++ [PreventDefault]) p).
Proof.
  intros Hpre Hc Hnull.
  rewrite (paste_handler_skip pre _ p (not_image_items _ Hpre)).
  rewrite (paste_handler_image item post p (proj2 (is_image_spec item) Hc)), Hnull.
  reflexivity.
Qed.

Lemma paste_non_file_image_throws_witness :
  contains (item_type Scenario.image_url_item) "image" /\
  paste_handler [Sample.html_item; Scenario.image_url_item; Sample.png_item] Sample.page =
    (Throw (TypeError "type"), set_log [PreventDefault] Sample.page).
Proof.
  assert (Hc : contains (item_type Scenario.image_url_item) "image")
    by (apply is_image_spec; reflexivity).
  split; [exact Hc|].
  apply (paste_non_file_image_throws Sample.page [Sample.html_item] [Sample.png_item]
           Scenario.image_url_item).
  - intros it [<-|[]]. apply is_image_false. reflexivity.
  - exact Hc.
  - reflexivity.
Defined.

(** X12.  When the page has no [#photoInput], pasting a supported image
    throws a [TypeError] on the assignment of line 30, after the default action
    has been prevented: no banner is created and no timeout is registered. *)
Theorem paste_without_input_throws
    (p : Page) (items : list DataTransferItem) (file : File) :
  supported_paste items file ->
  photoInput p = None ->
  paste_handler items p =
    (Throw (TypeError "files"), set_log (log p ++ [PreventDefault]) p).
Proof.
  intros [pre [item [post [-> [Hpre [[Hfile Htype] Hok]]]]]] Hno.
  rewrite (paste_handler_skip pre _ p (not_image_items _ Hpre)).
  rewrite (paste_handler_image item post p (allowed_is_image item Hok)), Hfile.
  rewrite (proj2 (includes_spec allowedTypes (file_type file)))
    by (rewrite Htype; exact Hok).
  rewrite Hno. reflexivity.
Qed.

Lemma supported_jpeg_paste :
  supported_paste [Sample.html_item; Scenario.jpeg_item; Sample.png_item] Scenario.jpeg.
Proof.
  exists [Sample.html_item], Scenario.jpeg_item, [Sample.png_item].
  split; [reflexivity|]. split; [|split].
  - intros it [<-|[]]. apply is_image_false. reflexivity.
  - split; reflexivity.
  - left. reflexivity.
Defined.

Lemma paste_without_input_throws_witness :
  supported_paste [Sample.html_item; Scenario.jpeg_item; Sample.png_item] Scenario.jpeg /\
  paste_handler [Sample.html_item; Scenario.jpeg_item; Sample.png_item] Scenario.no_input =
    (Throw (TypeError "files"), set_log [PreventDefault] Scenario.no_input).
Proof.
  split; [exact supported_jpeg_paste|].
  exact (paste_without_input_throws Scenario.no_input _ _ supported_jpeg_paste eq_refl).
Defined.

(** ** Banners over several pastes and over time *)

Lemma showPasteSuccess_document (p : Page) (input : FileInput) :
  photoInput p = Some input ->
  document (snd (showPasteSuccess p)) =
    (doc_upto (without_first_banner p)
       ++ banner (next_id p) :: doc_rest (without_first_banner p))%list /\
  next_id (snd (showPasteSuccess p)) = S (next_id p) /\
  now (snd (showPasteSuccess p)) = now p /\
  timers (snd (showPasteSuccess p)) = (timers p ++ [banner_timer p])%list.
Proof.
  intros Hin. rewrite (showPasteSuccess_run p input Hin). cbv zeta.
  unfold document. cbn. rewrite <- app_assoc. repeat split.
Qed.

Lemma without_first_banner_clears (p : Page) :
  length (banners (document p)) <= 1 ->
  banners (document (without_first_banner p)) = [].
Proof.
  intros Hone. rewrite without_first_banner_document, find_banners.
  destruct (banners (document p)) as [|old [|x l]] eqn:E; cbn.
  - exact E.
  - rewrite banners_detach, E. unfold detach. cbn.
    rewrite Nat.eqb_refl. reflexivity.
  - cbn in Hone. lia.
Qed.

Lemma showPasteSuccess_banners (p : Page) (input : FileInput) :
  photoInput p = Some input ->
  length (banners (document p)) <= 1 ->
  banners (document (snd (showPasteSuccess p))) = [banner (next_id p)].
Proof.
  intros Hin Hone.
  destruct (showPasteSuccess_document p input Hin) as [-> _].
  pose proof (without_first_banner_clears p Hone) as Hnil.
  unfold document in Hnil. rewrite banners_app in Hnil.
  apply app_eq_nil in Hnil as [Hu Hr].
  rewrite banners_app.
  change (banners (banner (next_id p) :: doc_rest (without_first_banner p)))
    with (banner (next_id p) :: banners (doc_rest (without_first_banner p))).
  rewrite Hu, Hr. reflexivity.
Qed.

Lemma showPasteSuccess_lifetime (p : Page) (input : FileInput) :
  photoInput p = Some input ->
  fresh_ids p ->
  (forall d, d < 3000 ->
     In (banner (next_id p)) (document (advance d (snd (showPasteSuccess p))))) /\
  (forall d el, 3000 <= d ->
     In el (document (advance d (snd (showPasteSuccess p)))) ->
     elem_id el <> next_id p).
Proof.
  intros Hin [_ Htimers].
  destruct (showPasteSuccess_document p input Hin) as [Hdoc [_ [Hnow Hts]]].
  split.
  - intros d Hd. apply advance_keeps.
    + intros tm Htm Hdue. rewrite Hts in Htm. rewrite Hnow in Hdue.
      apply in_app_iff in Htm as [Htm|[<-|[]]].
      * apply Htimers in Htm. destruct (action tm) as [id']. cbn. intros [=]. lia.
      * cbn in Hdue. lia.
    + rewrite Hdoc. apply in_app_iff. right. left. reflexivity.
  - intros d el Hd. apply advance_removes.
    exists (banner_timer p). rewrite Hts, Hnow. split; [|split].
    + apply in_app_iff. right. left. reflexivity.
    + cbn. lia.
    + reflexivity.
Qed.

Lemma banners_detach_length (id : nat) (l : list Element) :
  length (banners (detach id l)) <= length (banners l).
Proof. rewrite banners_detach. unfold detach. apply List.filter_length_le. Qed.

(** What the passing of time keeps: everything but the document, the clock
    and the timers. *)
Lemma run_timers_keep_fields (fired : list Timer) (p : Page) :
  let q := fold_left (fun q tm => run_action (action tm) q) fired p in
  photoInput q = photoInput p /\ next_id q = next_id p /\ log q = log p /\
  now q = now p /\ timers q = timers p.
Proof.
  revert p. induction fired as [|tm fired IH]; intros p; cbn; [tauto|].
  destruct (IH (run_action (action tm) p)) as [H1 [H2 [H3 [H4 H5]]]].
  destruct (action tm) as [id]. cbn in *. tauto.
Qed.

Lemma run_timers_banner_count (fired : list Timer) (p : Page) :
  length (banners (document (fold_left (fun q tm => run_action (action tm) q) fired p)))
  <= length (banners (document p)).
Proof.
  revert p. induction fired as [|tm fired IH]; intros p; cbn; [lia|].
  etransitivity; [apply IH|]. destruct (action tm) as [id]. cbn [run_action].
  rewrite document_remove_node. apply banners_detach_length.
Qed.

Lemma advance_keeps_fields (d : nat) (p : Page) :
  photoInput (advance d p) = photoInput p /\ next_id (advance d p) = next_id p /\
  log (advance d p) = log p.
Proof.
  unfold advance.
  destruct (run_timers_keep_fields
              (List.filter (fun tm => Nat.leb (due tm) (now p + d)) (timers p))
              (set_clock (now p + d)
                 (List.filter (fun tm => negb (Nat.leb (due tm) (now p + d))) (timers p)) p))
    as [H1 [H2 [H3 _]]].
  cbv zeta in *. cbn in *. tauto.
Qed.

Lemma advance_shrinks (d : nat) (p : Page) (el : Element) :
  In el (document (advance d p)) -> In el (document p).
Proof. unfold advance. intros H. apply run_timers_shrink in H. exact H. Qed.

(** X7.  A document with at most one success banner still has at most one
    after a paste, however the paste ends, and after any lapse of time:
    banners never stack. *)
Theorem at_most_one_banner (items : list DataTransferItem) (d : nat) (p : Page) :
  length (banners (document p)) <= 1 ->
  length (banners (document (snd (paste_handler items p)))) <= 1 /\
  length (banners (document (advance d p))) <= 1.
Proof.
  intros Hone. split.
  - destruct (first_image_split items) as [Hnone | [pre [item [post [-> [Hpre Himg]]]]]].
    + rewrite (paste_handler_no_image items p Hnone). exact Hone.
    + rewrite (paste_handler_skip pre _ p Hpre), (paste_handler_image item post p Himg).
      destruct (getAsFile item) as [file|]; [|exact Hone].
      destruct (Str.includes allowedTypes (file_type file)); [|exact Hone].
      destruct (photoInput p) as [input|]; [|exact Hone].
      rewrite (showPasteSuccess_banners (with_pasted_file file p)
                 {| files := Some [file] |} eq_refl Hone).
      cbn. lia.
  - unfold advance. etransitivity; [apply run_timers_banner_count | exact Hone].
Qed.

Lemma at_most_one_banner_witness :
  length (banners (document Sample.page)) <= 1 /\
  length (banners (document
            (snd (paste_handler [Sample.png_item]
                    (snd (paste_handler [Sample.png_item] Sample.page)))))) <= 1.
Proof.
  assert (H0 : length (banners (document Sample.page)) <= 1) by (cbn; lia).
  split; [exact H0|].
  apply (at_most_one_banner [Sample.png_item] 0).
  apply (at_most_one_banner [Sample.png_item] 0). exact H0.
Defined.

(** X8.  Two accepted pastes, [d1] milliseconds apart.  The input ends with
    the second file only; the only banner is the one of the second paste; that
    banner stays for the full 3000 ms after the second paste, although the
    timeout of the first paste fires in between; and once 3000 ms have
    passed no banner is left. *)
Theorem second_paste_replaces_banner
    (p : Page) (items1 items2 : list DataTransferItem) (file1 file2 : File)
    (input : FileInput) (d1 : nat) :
  supported_paste items1 file1 ->
  supported_paste items2 file2 ->
  photoInput p = Some input ->
  fresh_ids p ->
  length (banners (document p)) <= 1 ->
  let p3 := snd (paste_handler items2 (advance d1 (snd (paste_handler items1 p)))) in
  photoInput p3 = Some {| files := Some [file2] |} /\
  banners (document p3) = [banner (S (next_id p))] /\
  (forall d, d < 3000 -> In (banner (S (next_id p))) (document (advance d p3))) /\
  (forall d, 3000 <= d -> banners (document (advance d p3)) = []).
Proof.
  intros Hs1 Hs2 Hin Hfresh Hone p3. subst p3.
  rewrite (supported_paste_run items1 file1 p input Hs1 Hin).
  set (p1 := snd (showPasteSuccess (with_pasted_file file1 p))).
  assert (Hin1 : photoInput (with_pasted_file file1 p) = Some {| files := Some [file1] |})
    by reflexivity.
  assert (Hfresh0 : fresh_ids (with_pasted_file file1 p))
    by (eapply fresh_ids_same; [..|exact Hfresh]; reflexivity).
  destruct (showPasteSuccess_keeps _ _ Hin1) as [_ [Hp1in _]]. fold p1 in Hp1in.
  destruct (showPasteSuccess_document _ _ Hin1) as [_ [Hp1id _]]. fold p1 in Hp1id.
  pose proof (fresh_ids_showPasteSuccess _ Hfresh0) as Hfresh1. fold p1 in Hfresh1.
  pose proof (showPasteSuccess_banners _ _ Hin1 Hone) as Hb1. fold p1 in Hb1.
  set (p2 := advance d1 p1).
  destruct (advance_keeps_fields d1 p1) as [Hp2in [Hp2id _]]. fold p2 in Hp2in, Hp2id.
  pose proof (fresh_ids_advance d1 p1 Hfresh1) as Hfresh2. fold p2 in Hfresh2.
  assert (Hone2 : length (banners (document p2)) <= 1).
  { unfold p2, advance. etransitivity; [apply run_timers_banner_count|].
    change (length (banners (document p1)) <= 1). rewrite Hb1. cbn. lia. }
  assert (Hp2 : photoInput p2 = Some {| files := Some [file1] |}) by congruence.
  rewrite (supported_paste_run items2 file2 p2 _ Hs2 Hp2).
  set (p2' := with_pasted_file file2 p2).
  assert (Hin2 : photoInput p2' = Some {| files := Some [file2] |}) by reflexivity.
  assert (Hfresh2' : fresh_ids p2')
    by (eapply fresh_ids_same; [..|exact Hfresh2]; reflexivity).
  assert (Hid : next_id p2' = S (next_id p)).
  { change (next_id p2 = S (next_id p)). rewrite Hp2id, Hp1id. reflexivity. }
  destruct (showPasteSuccess_keeps _ _ Hin2) as [_ [Hp3in _]].
  pose proof (showPasteSuccess_banners p2' _ Hin2 Hone2) as Hb3.
  destruct (showPasteSuccess_lifetime p2' _ Hin2 Hfresh2') as [Hstay Hgone].
  rewrite Hid in Hb3, Hstay, Hgone.
  split; [congruence|]. split; [exact Hb3|]. split; [exact Hstay|].
  intros d Hd.
  destruct (banners (document (advance d (snd (showPasteSuccess p2'))))) as [|el l] eqn:E;
    [reflexivity|].
  exfalso. assert (Hel : In el (el :: l)) by (left; reflexivity).
  rewrite <- E in Hel. unfold banners in Hel. apply filter_In in Hel as [Hel Hcls].
  pose proof (Hgone d el Hd Hel) as Hne.
  apply advance_shrinks in Hel.
  assert (Hin3 : In el (banners (document (snd (showPasteSuccess p2')))))
    by (apply filter_In; split; assumption).
  rewrite Hb3 in Hin3. destruct Hin3 as [<-|[]]. apply Hne. reflexivity.
Qed.

Lemma supported_png_paste : supported_paste [Sample.png_item] Sample.png.
Proof.
  exists [], Sample.png_item, [].
  split; [reflexivity|]. split; [|split].
  - intros it [].
  - split; reflexivity.
  - right. right. left. reflexivity.
Defined.

Lemma second_paste_replaces_banner_witness :
  fresh_ids Sample.page /\
  photoInput
    (snd (paste_handler [Sample.html_item; Scenario.jpeg_item; Sample.png_item]
            (advance 1000 (snd (paste_handler [Sample.png_item] Sample.page)))))
    = Some {| files := Some [Scenario.jpeg] |} /\
  In (banner 1)
    (document
       (advance 2999
          (snd (paste_handler [Sample.html_item; Scenario.jpeg_item; Sample.png_item]
                  (advance 1000 (snd (paste_handler [Sample.png_item] Sample.page))))))).
Proof.
  assert (Hfresh : fresh_ids Sample.page) by (split; intros ? []).
  assert (Hone : length (banners (document Sample.page)) <= 1) by (cbn; lia).
  split; [exact Hfresh|].
  destruct (second_paste_replaces_banner Sample.page _ _ _ _ {| files := Some [] |} 1000
              supported_png_paste supported_jpeg_paste eq_refl Hfresh Hone)
    as [Hfile [_ [Hstay _]]].
  split; [exact Hfile | apply Hstay; lia].
Defined.

(** ** The preview listener and the settlement of its request *)

(** X1.  A click with a file selected, a checked [bg_color] input and the
    button present completes normally and issues exactly one request,
    [POST /preview], whose body is [photo], the first selected file, followed
    by [bg_color], the value of the first checked input of that name; the
    button is left disabled with the busy label and nothing else changes. *)
Theorem click_issues_request
    (p : Page) (input : FileInput) (photo : File) (others : list File)
    (radio : Checkable) (btn : Button) :
  photoInput p = Some input ->
  files input = Some (photo :: others) ->
  checked_bg_color p = Some radio ->
  previewBtn p = Some btn ->
  click_handler p =
    (Normal tt,
     set_log (log p ++ [Fetch "/preview" "POST"
                          [("photo", FormFile photo);
                           ("bg_color", FormString (value radio))]])
       (set_previewBtn (Some {| disabled := true; textContent := busy_label |}) p)) /\
  name radio = "bg_color" /\ checked radio = true /\ In radio (inputs p).
Proof.
  intros Hin Hfiles Hsel Hbtn.
  rewrite click_handler_cases, Hin, Hfiles, Hsel, Hbtn.
  split; [reflexivity|].
  unfold checked_bg_color in Hsel. apply find_some in Hsel as [Hmem Htest].
  apply andb_true_iff in Htest as [Hname Hchecked].
  apply String.eqb_eq in Hname. repeat split; assumption.
Qed.

Lemma click_issues_request_witness :
  checked_bg_color Sample.ready
    = Some {| name := "bg_color"; value := "blue"; checked := true |} /\
  log (snd (click_handler Sample.ready)) =
    [Fetch "/preview" "POST"
       [("photo", FormFile Sample.png); ("bg_color", FormString "blue")]].
Proof.
  split; [reflexivity|].
  rewrite (proj1 (click_issues_request Sample.ready {| files := Some [Sample.png] |}
                    Sample.png []
                    {| name := "bg_color"; value := "blue"; checked := true |}
                    {| disabled := false; textContent := "Preview" |}
                    eq_refl eq_refl eq_refl eq_refl)).
  reflexivity.
Defined.

(** X2.  When the request fails on the network, or its body cannot be parsed,
    the settlement completes normally, raises the generic failure alert once,
    then writes the error to the console once; apart from restoring the
    button nothing changes, so the preview keeps what it showed. *)
Theorem settle_failure_reports (p : Page) (e : JS.Error) (btn : Button) :
  previewBtn p = Some btn ->
  on_settle (NetworkFailure e) p =
    (Normal tt, set_log (log p ++ failure_report e) (restored p)) /\
  on_settle (ParseFailure e) p =
    (Normal tt, set_log (log p ++ failure_report e) (restored p)) /\
  previewImage (snd (on_settle (NetworkFailure e) p)) = previewImage p /\
  previewArea (snd (on_settle (NetworkFailure e) p)) = previewArea p.
Proof.
  intros Hbtn. cbn [on_settle]. rewrite (on_rejected_run e p btn Hbtn).
  repeat split; reflexivity.
Qed.

Lemma settle_failure_reports_witness :
  on_settle (ParseFailure (SyntaxError "Unexpected token <")) Sample.in_flight =
    (Normal tt,
     set_log (log Sample.in_flight
                ++ [Alert failure_msg;
                    ConsoleError "Error:" (SyntaxError "Unexpected token <")])
       (restored Sample.in_flight)).
Proof.
  apply (proj1 (proj2 (settle_failure_reports Sample.in_flight
                         (SyntaxError "Unexpected token <")
                         {| disabled := true; textContent := busy_label |} eq_refl))).
Defined.

(** X3.  An exception of the fulfilment callback ends in the rejection
    callback.  For a body that asks for rendering and whose
    [preview_mime_type] and [preview_base64] convert to the strings [mime] and
    [b64]: without [#previewImage] the user gets the generic failure alert and
    the console gets the [TypeError]; without [#previewArea] the same happens
    after the image source has already been set. *)
Theorem render_exception_reaches_catch
    (p : Page) (data : JSON) (mime b64 : string) (btn : Button) :
  previewBtn p = Some btn ->
  data <> JNull ->
  truthy (field data "error") = false ->
  truthy (field data "success") && truthy (field data "preview_base64") = true ->
  ToString_value (field data "preview_mime_type") = Some mime ->
  ToString_value (field data "preview_base64") = Some b64 ->
  (previewImage p = None ->
     on_settle (Parsed data) p =
       (Normal tt,
        set_log (log p ++ failure_report (TypeError "src")) (restored p))) /\
  (forall img, previewImage p = Some img -> previewArea p = None ->
     on_settle (Parsed data) p =
       (Normal tt,
        set_log (log p ++ failure_report (TypeError "style"))
          (set_previewImage
             (Some {| src := "data:" ++ mime ++ ";base64," ++ b64 |})
             (restored p)))).
Proof.
  intros Hbtn Hnn Herr Hcond Hmime Hb64. cbn [on_settle]. unfold try_catch.
  rewrite (on_fulfilled_nonnull data p btn Hnn Hbtn), Herr, Hcond. cbv zeta.
  unfold data_uri.
  rewrite (ToString_value_agrees _ mime Hmime), (ToString_value_agrees _ b64 Hb64).
  split.
  - intros Himg. rewrite Himg.
    rewrite (on_rejected_run _ (restored p)
               {| disabled := false; textContent := idle_label |} eq_refl).
    reflexivity.
  - intros img Himg Harea. rewrite Himg, Harea.
    rewrite (on_rejected_run (TypeError "style")
               (set_previewImage
                  (Some {| src := "data:" ++ mime ++ ";base64," ++ b64 |})
                  (restored p))
               {| disabled := false; textContent := idle_label |} eq_refl).
    reflexivity.
Qed.

Lemma render_exception_reaches_catch_witness :
  previewImage Scenario.no_image = None /\
  log (snd (on_settle (Parsed (JObj Sample.success_props)) Scenario.no_image)) =
    (log Scenario.no_image
       ++ [Alert failure_msg; ConsoleError "Error:" (TypeError "src")])%list /\
  previewImage (snd (on_settle (Parsed (JObj Sample.success_props)) Scenario.no_area))
    = Some {| src := "data:image/png;base64,QQ==" |}.
Proof.
  split; [reflexivity|].
  destruct (render_exception_reaches_catch Scenario.no_image (JObj Sample.success_props)
              "image/png" "QQ=="
              {| disabled := true; textContent := busy_label |}
              eq_refl ltac:(discriminate) eq_refl eq_refl eq_refl eq_refl) as [Himg _].
  destruct (render_exception_reaches_catch Scenario.no_area (JObj Sample.success_props)
              "image/png" "QQ=="
              {| disabled := true; textContent := busy_label |}
              eq_refl ltac:(discriminate) eq_refl eq_refl eq_refl eq_refl) as [_ Harea].
  rewrite (Himg eq_refl), (Harea {| src := "" |} eq_refl eq_refl).
  split; reflexivity.
Defined.

(** X16.  Rendering depends on truthiness only, and the data URI is built
    from the string forms of whatever the two fields hold: for a body that is
    not [null], with a falsy [error], a truthy [success] (a number or a string
    will do) and a truthy [preview_base64], where [preview_mime_type] and
    [preview_base64] convert to the strings [mime] and [b64], the preview is
    rendered with the source [data:] ++ mime ++ [;base64,] ++ b64; when
    [preview_mime_type] is missing the source starts with
    [data:undefined;base64,]. *)
Theorem preview_renders_on_truthiness
    (p : Page) (data : JSON) (mime b64 : string)
    (btn : Button) (img : Image) (area : Container) :
  previewBtn p = Some btn ->
  previewImage p = Some img ->
  previewArea p = Some area ->
  data <> JNull ->
  truthy (field data "error") = false ->
  truthy (field data "success") = true ->
  truthy (field data "preview_base64") = true ->
  ToString_value (field data "preview_mime_type") = Some mime ->
  ToString_value (field data "preview_base64") = Some b64 ->
  on_settle (Parsed data) p =
    (Normal tt, rendered ("data:" ++ mime ++ ";base64," ++ b64) (restored p)) /\
  (field data "preview_mime_type" = None ->
   previewImage (snd (on_settle (Parsed data) p)) =
     Some {| src := "data:undefined;base64," ++ b64 |}).
Proof.
  intros Hbtn Himg Harea Hnn Herr Hok Htruthy Hmime Hb64.
  cbn [on_settle]. unfold try_catch.
  rewrite (on_fulfilled_nonnull data p btn Hnn Hbtn), Herr, Hok, Htruthy, Himg, Harea.
  cbv zeta. unfold data_uri.
  rewrite (ToString_value_agrees _ mime Hmime), (ToString_value_agrees _ b64 Hb64).
  split; [reflexivity|].
  intros Hnone. rewrite Hnone in Hmime. injection Hmime as <-. reflexivity.
Qed.

Lemma preview_renders_on_truthiness_witness :
  truthy (field (JObj Scenario.loose_props) "success") = true /\
  previewImage (snd (on_settle (Parsed (JObj Scenario.loose_props)) Sample.in_flight))
    = Some {| src := "data:undefined;base64,QQ==" |}.
Proof.
  split; [reflexivity|].
  apply (proj2 (preview_renders_on_truthiness Sample.in_flight (JObj Scenario.loose_props)
                  "undefined" "QQ=="
                  {| disabled := true; textContent := busy_label |}
                  {| src := "" |} {| display := "none" |}
                  eq_refl eq_refl eq_refl ltac:(discriminate) eq_refl eq_refl eq_refl
                  eq_refl eq_refl)).
  reflexivity.
Defined.

Lemma on_rejected_no_button (e : JS.Error) (p : Page) :
  previewBtn p = None -> on_rejected e p = (Throw (TypeError "disabled"), p).
Proof.
  intros Hno. unfold on_rejected, set_disabled. run. rewrite Hno. reflexivity.
Qed.

Lemma on_fulfilled_no_button (data : JSON) (p : Page) :
  previewBtn p = None -> on_fulfilled data p = (Throw (TypeError "disabled"), p).
Proof.
  intros Hno. unfold on_fulfilled, set_disabled. run. rewrite Hno. reflexivity.
Qed.

Lemma click_handler_paste_part (p : Page) :
  paste_part (snd (click_handler p)) = paste_part p.
Proof.
  rewrite click_handler_cases.
  destruct (photoInput p) as [input|] eqn:Hin; [|reflexivity].
  destruct (files input) as [[|photo rest]|]; try reflexivity.
  destruct (checked_bg_color p); [|reflexivity].
  destruct (previewBtn p); reflexivity.
Qed.

Lemma on_rejected_paste_part (e : JS.Error) (p : Page) :
  paste_part (snd (on_rejected e p)) = paste_part p.
Proof.
  destruct (previewBtn p) as [btn|] eqn:Hbtn.
  - rewrite (on_rejected_run e p btn Hbtn). reflexivity.
  - rewrite (on_rejected_no_button e p Hbtn). reflexivity.
Qed.

Lemma on_fulfilled_paste_part (data : JSON) (p : Page) :
  paste_part (snd (on_fulfilled data p)) = paste_part p.
Proof.
  destruct (previewBtn p) as [btn|] eqn:Hbtn;
    [|rewrite (on_fulfilled_no_button data p Hbtn); reflexivity].
  assert (Hcase : data = JNull \/ data <> JNull)
    by (destruct data; (left; reflexivity) || (right; discriminate)).
  destruct Hcase as [->|Hnn].
  - rewrite (on_fulfilled_null p btn Hbtn). reflexivity.
  - rewrite (on_fulfilled_nonnull data p btn Hnn Hbtn).
    destruct (truthy (field data "error")); [reflexivity|].
    destruct (truthy (field data "success") && truthy (field data "preview_base64"));
      [|reflexivity].
    cbv zeta. destruct (previewImage p), (previewArea p); reflexivity.
Qed.

Lemma on_settle_paste_part (o : Outcome) (p : Page) :
  paste_part (snd (on_settle o p)) = paste_part p.
Proof.
  destruct o as [e|e|data]; cbn [on_settle]; try apply on_rejected_paste_part.
  unfold try_catch. pose proof (on_fulfilled_paste_part data p) as Hf.
  destruct (on_fulfilled data p) as [[[]|e] p']; cbn in Hf; [exact Hf|].
  rewrite <- Hf. apply on_rejected_paste_part.
Qed.

(** X4.  Neither the click listener nor the settlement of the request ever
    touches the paste side of the page: the selected files, the colour inputs,
    the document with its banners, the timers, the clock and the listeners are
    the same afterwards, whatever the outcome, exceptions included. *)
Theorem preview_handlers_frame (p : Page) (o : Outcome) :
  paste_part (snd (click_handler p)) = paste_part p /\
  paste_part (snd (on_settle o p)) = paste_part p.
Proof. split; [apply click_handler_paste_part | apply on_settle_paste_part]. Qed.

Lemma paste_part_fields (p q : Page) :
  paste_part q = paste_part p ->
  photoInput q = photoInput p /\ checked_bg_color q = checked_bg_color p /\
  document q = document p /\ timers q = timers p /\ next_id q = next_id p.
Proof.
  unfold paste_part, checked_bg_color, document. intros [= -> -> -> -> -> _ -> _ _].
  repeat split.
Qed.

(** X14.  The button goes from idle to pending and back: after a click that
    issued a request and any settlement of it, the button is enabled again and
    a new click issues the same request once more, with the same file and the
    same colour. *)
Theorem click_again_after_settle
    (p : Page) (input : FileInput) (photo : File) (others : list File)
    (radio : Checkable) (btn : Button) (o : Outcome) :
  photoInput p = Some input ->
  files input = Some (photo :: others) ->
  checked_bg_color p = Some radio ->
  previewBtn p = Some btn ->
  let settled := snd (on_settle o (snd (click_handler p))) in
  previewBtn (snd (click_handler p))
    = Some {| disabled := true; textContent := busy_label |} /\
  previewBtn settled = Some {| disabled := false; textContent := idle_label |} /\
  click_handler settled = (Normal tt, pending photo (value radio) settled).
Proof.
  intros Hin Hfiles Hsel Hbtn settled. subst settled.
  assert (Hclick : click_handler p = (Normal tt, pending photo (value radio) p))
    by (rewrite click_handler_cases, Hin, Hfiles, Hsel, Hbtn; reflexivity).
  rewrite Hclick. cbn [snd].
  split; [reflexivity|].
  destruct (on_settle_button o (pending photo (value radio) p)
              {| disabled := true; textContent := busy_label |} eq_refl)
    as [p2 [Hrun Hb2]].
  destruct (paste_part_fields _ _ (on_settle_paste_part o (pending photo (value radio) p)))
    as [Hin2 [Hsel2 _]].
  rewrite Hrun in *. cbn [snd] in *.
  split; [exact Hb2|].
  rewrite click_handler_cases, Hin2, Hsel2, Hb2.
  change (photoInput (pending photo (value radio) p)) with (photoInput p).
  change (checked_bg_color (pending photo (value radio) p)) with (checked_bg_color p).
  rewrite Hin, Hfiles, Hsel. reflexivity.
Qed.

Lemma click_again_after_settle_witness :
  click_handler (snd (on_settle (Parsed (JObj Sample.error_props))
                        (snd (click_handler Sample.ready))))
  = (Normal tt,
     pending Sample.png "blue"
       (snd (on_settle (Parsed (JObj Sample.error_props))
               (snd (click_handler Sample.ready))))).
Proof.
  apply (proj2 (proj2 (click_again_after_settle Sample.ready
                         {| files := Some [Sample.png] |} Sample.png []
                         {| name := "bg_color"; value := "blue"; checked := true |}
                         {| disabled := false; textContent := "Preview" |}
                         (Parsed (JObj Sample.error_props))
                         eq_refl eq_refl eq_refl eq_refl))).
Defined.

(** X17.  The two listeners compose: after a paste that accepts a file, a
    click sends exactly that file as [photo], together with the checked
    colour, whatever the input held before the paste. *)
Theorem pasted_file_is_sent
    (p : Page) (items : list DataTransferItem) (file : File) (input : FileInput)
    (radio : Checkable) (btn : Button) :
  supported_paste items file ->
  photoInput p = Some input ->
  checked_bg_color p = Some radio ->
  previewBtn p = Some btn ->
  click_handler (snd (paste_handler items p)) =
    (Normal tt, pending file (value radio) (snd (paste_handler items p))).
Proof.
  intros Hs Hin Hsel Hbtn.
  rewrite (supported_paste_run items file p input Hs Hin).
  destruct (showPasteSuccess_keeps (with_pasted_file file p)
              {| files := Some [file] |} eq_refl) as [_ [Hin' [_ Hprev]]].
  unfold preview_part in Hprev. injection Hprev as Hb _ _ Hi _ _ _.
  rewrite click_handler_cases, Hin'. cbn [with_pasted_file set_photoInput photoInput files].
  unfold checked_bg_color. rewrite Hi, Hb.
  change (inputs (with_pasted_file file p)) with (inputs p).
  change (previewBtn (with_pasted_file file p)) with (previewBtn p).
  fold (checked_bg_color p). rewrite Hsel, Hbtn. reflexivity.
Qed.

Lemma pasted_file_is_sent_witness :
  log (snd (click_handler
              (snd (paste_handler
                      [Sample.html_item; Scenario.jpeg_item; Sample.png_item]
                      Sample.ready)))) =
    [PreventDefault;
     Fetch "/preview" "POST"
       [("photo", FormFile Scenario.jpeg); ("bg_color", FormString "blue")]].
Proof.
  rewrite (pasted_file_is_sent Sample.ready _ Scenario.jpeg
             {| files := Some [Sample.png] |}
             {| name := "bg_color"; value := "blue"; checked := true |}
             {| disabled := false; textContent := "Preview" |}
             supported_jpeg_paste eq_refl eq_refl eq_refl).
  reflexivity.
Defined.

(** ** Loading the page *)

(** X15.  Loading never throws, whichever elements the page lacks.  It
    always registers the paste listener, registers the click listener exactly
    when [#previewBtn] exists, and changes nothing else; after it a paste event
    runs the paste listener, while before it (no listener registered) a paste
    event does nothing. *)
Theorem load_registers_listeners (p : Page) (items : list DataTransferItem) :
  DOMContentLoaded p =
    (Normal tt,
     set_listeners true
       (match previewBtn p with Some _ => true | None => click_attached p end) p) /\
  dispatch_paste items (snd (DOMContentLoaded p))
    = paste_handler items (snd (DOMContentLoaded p)) /\
  (paste_attached p = false -> dispatch_paste items p = (Normal tt, p)).
Proof.
  assert (Hload : DOMContentLoaded p =
    (Normal tt,
     set_listeners true
       (match previewBtn p with Some _ => true | None => click_attached p end) p)).
  { unfold DOMContentLoaded, init_paste, init_preview. run.
    destruct (previewBtn p); reflexivity. }
  rewrite Hload. split; [reflexivity|]. split.
  - unfold dispatch_paste. run. reflexivity.
  - intros Hoff. unfold dispatch_paste. run. rewrite Hoff. reflexivity.
Qed.

Lemma load_registers_listeners_witness :
  paste_attached Scenario.unloaded = false /\
  dispatch_paste [Sample.png_item] Scenario.unloaded = (Normal tt, Scenario.unloaded) /\
  DOMContentLoaded Scenario.unloaded = (Normal tt, Sample.page).
Proof.
  split; [reflexivity|].
  destruct (load_registers_listeners Scenario.unloaded [Sample.png_item])
    as [Hload [_ Hbefore]].
  split; [exact (Hbefore eq_refl) | exact Hload].
Defined.

(** ** Node identities *)

(** X6.  Freshness of node identities is an invariant of the whole script:
    it survives a paste (however it ends), the passing of time, a click and
    the settlement of a request. *)
Theorem fresh_ids_preserved
    (p : Page) (items : list DataTransferItem) (d : nat) (o : Outcome) :
  fresh_ids p ->
  fresh_ids (snd (paste_handler items p)) /\
  fresh_ids (advance d p) /\
  fresh_ids (snd (click_handler p)) /\
  fresh_ids (snd (on_settle o p)).
Proof.
  intros Hfresh. split; [|split; [|split]].
  - apply fresh_ids_paste_handler. exact Hfresh.
  - apply fresh_ids_advance. exact Hfresh.
  - destruct (paste_part_fields _ _ (click_handler_paste_part p)) as [_ [_ [H1 [H2 H3]]]].
    exact (fresh_ids_same p _ H1 H2 H3 Hfresh).
  - destruct (paste_part_fields _ _ (on_settle_paste_part o p)) as [_ [_ [H1 [H2 H3]]]].
    exact (fresh_ids_same p _ H1 H2 H3 Hfresh).
Qed.

Lemma fresh_ids_preserved_witness :
  fresh_ids Sample.page /\
  fresh_ids (advance 5000 (snd (paste_handler [Sample.png_item] Sample.page))).
Proof.
  assert (Hfresh : fresh_ids Sample.page) by (split; intros ? []).
  split; [exact Hfresh|].
  apply (fresh_ids_preserved _ [] 5000 (Parsed JNull)).
  apply (fresh_ids_preserved Sample.page [Sample.png_item] 0 (Parsed JNull)).
  exact Hfresh.
Defined.
